(** * hatchet-mcp: the read-only Hatchet facade of [src/hatchet_mcp/server.py]

    A shallow embedding of the module and the proofs of its specification.

    - Python values that cross the facade are the inductive [pyval]; objects
      carry their attribute dictionary as a [gmap], so [hasattr]/[getattr]
      are map lookups.
    - The [params] bag and every result dictionary are [gmap string pyval].
    - Exceptions are values of [pyexn]; [try: ... except Exception] is
      [try_except], which lets the classes outside [Exception] through.
    - The operations run in a state-and-exception monad [M] over a [world]:
      the clock read by [datetime.now], the [lru_cache] slot of
      [get_hatchet_client], the number of [Hatchet(...)] constructor runs,
      the state of the remote service and the requests sent to it so far.

    Strings are Rocq [string]s and [str.lower] is the ASCII lowering
    [lower]: it maps 'A'..'Z' to 'a'..'z' and leaves every other character
    alone.  No status or counter name of the module contains a letter that
    a non-ASCII character lowers to, so membership of a lowered string in
    [STATUS_MAP] or in [counts] is the same in both readings. *)

From Stdlib Require Import Ascii String.
From stdpp Require Import gmap strings list fin_maps numbers pretty.

#[local] Set Warnings "-register-all".
#[local] Open Scope Z_scope.
#[local] Open Scope string_scope.

(** ** Python values *)

(** [VEnum] is a member of a plain [Enum]. [VStrSub] is an instance of a
    subclass of [str], such as a member of a [(str, Enum)] class: it is a
    string with the content [content] for every operation of [str]
    (comparison, [lower], truth value, iteration), it has its own [str()]
    form and it may carry attributes. The objects modelled are those whose
    [__str__] returns: [rendering] is what it returns. *)
Inductive pyval : Type :=
| VNone
| VBool (b : bool)
| VInt (z : Z)
| VStr (s : string)
| VDatetime (us : Z)
| VEnum (cls member : string) (value : pyval)
| VList (items : list pyval)
| VDict (entries : gmap string pyval)
| VObj (cls rendering : string) (attrs : gmap string pyval)
| VStrSub (cls rendering content : string) (attrs : gmap string pyval).


(** [type(v).__name__], as it appears in the interpreter's messages. *)
Definition type_name (v : pyval) : string :=
  match v with
  | VNone => "NoneType"
  | VBool _ => "bool"
  | VInt _ => "int"
  | VStr _ => "str"
  | VDatetime _ => "datetime.datetime"
  | VEnum cls _ _ => cls
  | VList _ => "list"
  | VDict _ => "dict"
  | VObj cls _ _ => cls
  | VStrSub cls _ _ _ => cls
  end.

(** [getattr(v, name)] restricted to data attributes: an object exposes its
    attribute dictionary, an enumeration member exposes [name] and [value];
    the builtin types have none of the attribute names the module reads. *)
Definition py_getattr (v : pyval) (name : string) : option pyval :=
  match v with
  | VObj _ _ attrs => attrs !! name
  | VStrSub _ _ _ attrs => attrs !! name
  | VEnum _ member value =>
      if String.eqb name "value" then Some value
      else if String.eqb name "name" then Some (VStr member)
      else None
  | _ => None
  end.

Definition hasattr (v : pyval) (name : string) : bool :=
  match py_getattr v name with Some _ => true | None => false end.

(** Truth value of [v], as [or] and [if] test it. *)
Definition py_truthy (v : pyval) : bool :=
  match v with
  | VNone => false
  | VBool b => b
  | VInt z => negb (Z.eqb z 0)
  | VStr s => negb (String.eqb s "")
  | VDatetime _ => true
  | VEnum _ _ _ => true
  | VList items => match items with [] => false | _ => true end
  | VDict entries => negb (bool_decide (entries = ∅))
  | VObj _ _ _ => true
  | VStrSub _ _ content _ => negb (String.eqb content "")
  end.

(** The content of [v] as a string, when [v] is a [str] or an instance of
    a subclass of [str]. *)
Definition str_content (v : pyval) : option string :=
  match v with
  | VStr s => Some s
  | VStrSub _ _ content _ => Some content
  | _ => None
  end.

(** [x == s] for a [str] [s]: [str.__eq__] compares the contents, for a
    [str] and for an instance of a subclass of [str] alike; nothing else
    the model holds compares equal to a string. *)
Definition py_eq_str (v : pyval) (s : string) : bool :=
  match str_content v with
  | Some t => String.eqb t s
  | None => false
  end.

(** Truth value of an optional [str] argument ([None] and [""] are false). *)
Definition str_truthy (s : option string) : bool :=
  match s with
  | Some t => negb (String.eqb t "")
  | None => false
  end.

(** [workflow_name or "all"]. *)
Definition or_all (workflow_name : option string) : string :=
  match workflow_name with
  | Some name => if str_truthy workflow_name then name else "all"
  | None => "all"
  end.

(** ** [str.lower] *)

Definition is_upper (c : ascii) : bool :=
  (65 <=? nat_of_ascii c)%nat && (nat_of_ascii c <=? 90)%nat.

Definition is_lower (c : ascii) : bool :=
  (97 <=? nat_of_ascii c)%nat && (nat_of_ascii c <=? 122)%nat.

Definition ascii_lower (c : ascii) : ascii :=
  if is_upper c then ascii_of_nat (nat_of_ascii c + 32) else c.

Definition ascii_upper (c : ascii) : ascii :=
  if is_lower c then ascii_of_nat (nat_of_ascii c - 32) else c.

Fixpoint lower (s : string) : string :=
  match s with
  | EmptyString => EmptyString
  | String c rest => String (ascii_lower c) (lower rest)
  end.

(** [t] is [s] with any subset of its lower-case letters capitalised. *)
Inductive case_mixture : string -> string -> Prop :=
| mix_nil : case_mixture "" ""
| mix_keep c s t : case_mixture s t -> case_mixture (String c s) (String c t)
| mix_upper c s t :
    case_mixture s t -> case_mixture (String c s) (String (ascii_upper c) t).

(** Every case mixture of [s], in order (2^n strings for n characters). *)
Fixpoint case_mixtures (s : string) : list string :=
  match s with
  | EmptyString => [EmptyString]
  | String c rest =>
      let tails := case_mixtures rest in
      (String c <$> tails) ++ (String (ascii_upper c) <$> tails)
  end.

(** ** Exceptions *)

Inductive exn_class : Type :=
| AttributeError
| TypeError
| KeyError
| OverflowError
| OtherException (name : string)
| CancelledError
| KeyboardInterrupt
| SystemExit
| GeneratorExit
| OtherBaseException (name : string).

(** [isinstance(e, Exception)]: what [except Exception] intercepts.
    [asyncio.CancelledError], [KeyboardInterrupt], [SystemExit] and
    [GeneratorExit] derive from [BaseException] only. *)
Definition is_Exception (c : exn_class) : bool :=
  match c with
  | AttributeError | TypeError | KeyError | OverflowError
  | OtherException _ => true
  | CancelledError | KeyboardInterrupt | SystemExit | GeneratorExit
  | OtherBaseException _ => false
  end.

Record pyexn : Type := Exn { exn_cls : exn_class; exn_str : string }.

Inductive result (A : Type) : Type :=
| Ok (a : A)
| Raise (e : pyexn).

Arguments Ok {A} a.
Arguments Raise {A} e.

Definition rbind {A B} (r : result A) (k : A -> result B) : result B :=
  match r with
  | Ok a => k a
  | Raise e => Raise e
  end.

Notation "'let!' x ':=' r 'in' k" := (rbind r (fun x => k))
  (at level 10, x name, r at level 100, k at level 200).

Fixpoint rmapM {A B} (f : A -> result B) (l : list A) : result (list B) :=
  match l with
  | [] => Ok []
  | a :: rest =>
      let! b := f a in
      let! bs := rmapM f rest in
      Ok (b :: bs)
  end.

Definition no_attribute (v : pyval) (name : string) : pyexn :=
  Exn AttributeError
      ("'" ++ type_name v ++ "' object has no attribute '" ++ name ++ "'").

(** [v.name], raising [AttributeError] when the attribute is missing. *)
Definition getattr_exn (v : pyval) (name : string) : result pyval :=
  match py_getattr v name with
  | Some a => Ok a
  | None => Raise (no_attribute v name)
  end.

(** [v.lower()]: a method of [str], inherited by its subclasses, and of
    nothing else the model holds. *)
Definition py_lower (v : pyval) : result string :=
  match str_content v with
  | Some s => Ok (lower s)
  | None => Raise (no_attribute v "lower")
  end.

Fixpoint chars (s : string) : list pyval :=
  match s with
  | EmptyString => []
  | String c rest => VStr (String c EmptyString) :: chars rest
  end.

(** [for x in v]: lists yield their items, strings their characters,
    dictionaries their keys; nothing else the model holds is iterable. *)
Definition py_iter (v : pyval) : result (list pyval) :=
  match v with
  | VList items => Ok items
  | VStr s => Ok (chars s)
  | VStrSub _ _ content _ => Ok (chars content)
  | VDict entries => Ok (VStr <$> (map_to_list entries).*1)
  | _ => Raise (Exn TypeError ("'" ++ type_name v ++ "' object is not iterable"))
  end.

(** [(resp.rows or [])], ready to be iterated. *)
Definition rows_or_empty (resp : pyval) : result (list pyval) :=
  let! rows := getattr_exn resp "rows" in
  py_iter (if py_truthy rows then rows else VList []).

(** ** [datetime] arithmetic

    A [datetime] is the number of microseconds since 0001-01-01T00:00:00
    UTC, a [timedelta] a number of microseconds; both constructors check
    their range and raise [OverflowError] outside it. *)

Definition US_PER_HOUR : Z := 3600000000.
Definition US_PER_DAY : Z := 86400000000.
Definition MAX_DELTA_DAYS : Z := 999999999.
(** [date.max.toordinal()] days after 0001-01-01, exclusive. *)
Definition MAX_DATETIME_US : Z := 3652059 * US_PER_DAY.

(** [timedelta(hours=h)]. *)
Definition timedelta_hours (h : Z) : result Z :=
  let days := (h * US_PER_HOUR) `div` US_PER_DAY in
  if bool_decide (- MAX_DELTA_DAYS <= days <= MAX_DELTA_DAYS)%Z
  then Ok (h * US_PER_HOUR)%Z
  else if bool_decide (- 2147483648 <= days < 2147483648)%Z
  then Raise (Exn OverflowError
                  ("days=" ++ pretty days ++ "; must have magnitude <= 999999999"))
  else Raise (Exn OverflowError "Python int too large to convert to C int").

(** [t - d] for a datetime [t] and a timedelta [d]. *)
Definition datetime_sub (t d : Z) : result Z :=
  let r := (t - d)%Z in
  if bool_decide (0 <= r < MAX_DATETIME_US)%Z then Ok r
  else Raise (Exn OverflowError "date value out of range").

(** ** The status vocabulary *)

(** Modelled from the spec: the enumeration [V1TaskStatus] is imported from
    [hatchet_sdk]; the spec gives it as the closed enumeration
    {queued, running, completed, failed, cancelled}. *)
Inductive V1TaskStatus : Type := QUEUED | RUNNING | COMPLETED | FAILED | CANCELLED.

Definition V1TaskStatus_name (c : V1TaskStatus) : string :=
  match c with
  | QUEUED => "QUEUED"
  | RUNNING => "RUNNING"
  | COMPLETED => "COMPLETED"
  | FAILED => "FAILED"
  | CANCELLED => "CANCELLED"
  end.

(** A member of a [(str, Enum)] class: a string with the content of its
    value, printed as [Class.MEMBER], with the attributes [name] and
    [value]. *)
Definition str_enum_member (cls member value : string) : pyval :=
  VStrSub cls (cls ++ "." ++ member) value
          {[ "name" := VStr member; "value" := VStr value ]}.

(** The member [V1TaskStatus.c] as a Python value: [hatchet_sdk] declares
    [class V1TaskStatus(str, Enum)] and gives each member its own name as
    value. *)
Definition V1TaskStatus_member (c : V1TaskStatus) : pyval :=
  str_enum_member "V1TaskStatus" (V1TaskStatus_name c) (V1TaskStatus_name c).

Definition STATUS_MAP : gmap string V1TaskStatus :=
  {[ "queued" := QUEUED;
     "running" := RUNNING;
     "completed" := COMPLETED;
     "succeeded" := COMPLETED;
     "failed" := FAILED;
     "cancelled" := CANCELLED ]}.

(** The guarded lookup both [list_runs] and [search_runs] perform:
    [STATUS_MAP[status.lower()]] when
    [status and status.lower() in STATUS_MAP], nothing otherwise. *)
Definition translate (status : option string) : option V1TaskStatus :=
  match status with
  | Some s => if str_truthy (Some s) then STATUS_MAP !! lower s else None
  | None => None
  end.

(** The [if status and ...: params["statuses"] = [...]] statement. *)
Definition add_status_filter (status : option string)
    (params : gmap string pyval) : gmap string pyval :=
  match translate status with
  | Some code => <["statuses" := VList [V1TaskStatus_member code]]> params
  | None => params
  end.

(** ** The remote service and the client handle *)

(** A handle built by the [n]-th run of the [Hatchet] constructor; two
    handles are the same object exactly when they come from the same run. *)
Record Hatchet : Type := Handle { instance_id : nat }.

Inductive request : Type :=
| WorkflowsList
| RunsList (params : gmap string pyval)
| RunsGet (run_id : string)
| RunsGetResult (run_id : string).

(** The service behind the client, as a machine over its own state [R]:
    [hatchet_init] is [Hatchet(debug=False)], [serve] answers one request.
    Either may raise anything. *)
Record Remote (R : Type) : Type := {
  hatchet_init : R -> result unit * R;
  serve : request -> R -> result pyval * R
}.

Arguments hatchet_init {R} _ _.
Arguments serve {R} _ _ _.

(** ** Sample data for the scenarios *)

(** A stand-in for [str] on builtin values. *)
Definition demo_str (v : pyval) : string := "<builtin>".

(** 2026-11-03T12:00:00Z. *)
Definition demo_now : Z := 63929304000000000.

Definition demo_workflow (id name : string) : pyval :=
  VObj "Workflow" ("Workflow(" ++ name ++ ")")
       {[ "metadata" := VObj "APIResourceMeta" ("meta(" ++ id ++ ")") {[ "id" := VStr id ]};
          "name" := VStr name ]}.

Definition demo_run (id : string) (status : pyval) : pyval :=
  VObj "V1TaskSummary" ("V1TaskSummary(" ++ id ++ ")")
       {[ "metadata" := VObj "APIResourceMeta" ("meta(" ++ id ++ ")") {[ "id" := VStr id ]};
          "status" := status ]}.

Definition demo_workflows : list pyval :=
  [demo_workflow "wf-1" "qa-workflow"; demo_workflow "wf-2" "embed-workflow"].

Definition demo_runs : list pyval :=
  [demo_run "r1" (V1TaskStatus_member COMPLETED);
   demo_run "r2" (V1TaskStatus_member FAILED);
   demo_run "r3" (str_enum_member "V1TaskStatus" "EVICTED" "EVICTED");
   demo_run "r4" (V1TaskStatus_member COMPLETED)].

Definition not_found : pyexn :=
  Exn (OtherException "NotFoundException") "(404) Reason: Not Found".

(** A service without state: two workflows, four runs, and no run that
    can be fetched by its id. *)
Definition demo_remote : Remote unit := {|
  hatchet_init := fun s => (Ok (), s);
  serve := fun req s =>
    match req with
    | WorkflowsList =>
        (Ok (VObj "WorkflowList" "WorkflowList" {[ "rows" := VList demo_workflows ]}), s)
    | RunsList _ =>
        (Ok (VObj "V1TaskSummaryList" "V1TaskSummaryList" {[ "rows" := VList demo_runs ]}), s)
    | RunsGet _ => (Raise not_found, s)
    | RunsGetResult _ => (Raise not_found, s)
    end
|}.

(** A service whose one run carries its status as a plain string. *)
Definition string_status_remote : Remote unit := {|
  hatchet_init := fun s => (Ok (), s);
  serve := fun req s =>
    match req with
    | WorkflowsList => (Ok (VObj "WorkflowList" "WorkflowList" {[ "rows" := VList [] ]}), s)
    | RunsList _ =>
        (Ok (VObj "V1TaskSummaryList" "V1TaskSummaryList"
                  {[ "rows" := VList [demo_run "r9" (VStr "RUNNING")] ]}), s)
    | RunsGet _ => (Ok (demo_run "r9" (VStr "RUNNING")), s)
    | RunsGetResult _ => (Raise not_found, s)
    end
|}.

(** A service whose calls are all cancelled while they are awaited. *)
Definition cancelled_remote : Remote unit := {|
  hatchet_init := fun s => (Ok (), s);
  serve := fun _ s => (Raise (Exn CancelledError ""), s)
|}.

(** A service whose client cannot be built at first (no token yet) and
    can from the second attempt on; its state counts the attempts. *)
Definition flaky_remote : Remote nat := {|
  hatchet_init := fun n =>
    match n with
    | O => (Raise (Exn (OtherException "ValidationError") "Token must be set"), S n)
    | S _ => (Ok (), S n)
    end;
  serve := fun req n =>
    match req with
    | WorkflowsList =>
        (Ok (VObj "WorkflowList" "WorkflowList" {[ "rows" := VNone ]}), n)
    | RunsList _ =>
        (Ok (VObj "V1TaskSummaryList" "V1TaskSummaryList" {[ "rows" := VList demo_runs ]}), n)
    | RunsGet run_id => (Ok (demo_run run_id (V1TaskStatus_member RUNNING)), n)
    | RunsGetResult _ => (Ok (VDict {[ "answer" := VInt 42 ]}), n)
    end
|}.

(** A service whose second run of three carries a plain-string status. *)
Definition mixed_runs : list pyval :=
  [demo_run "r1" (V1TaskStatus_member COMPLETED);
   demo_run "r2" (VStr "RUNNING");
   demo_run "r3" (V1TaskStatus_member FAILED)].

Definition mixed_remote : Remote unit := {|
  hatchet_init := fun s => (Ok (), s);
  serve := fun req s =>
    match req with
    | RunsList _ =>
        (Ok (VObj "V1TaskSummaryList" "V1TaskSummaryList" {[ "rows" := VList mixed_runs ]}), s)
    | _ => (Raise not_found, s)
    end
|}.

Section Facade.

(** The service the process talks to, and the interpreter's [str] on the
    builtin values whose rendering the module never inspects. *)
Variable R : Type.
Variable remote : Remote R.
Variable str_builtin : pyval -> string.

(** [str(v)], for the values of the model, whose [__str__] returns. *)
Definition py_str (v : pyval) : string :=
  match v with
  | VNone => "None"
  | VBool true => "True"
  | VBool false => "False"
  | VStr s => s
  | VEnum cls member _ => cls ++ "." ++ member
  | VObj _ rendering _ => rendering
  | VStrSub _ rendering _ _ => rendering
  | VInt _ | VDatetime _ | VList _ | VDict _ => str_builtin v
  end.

(** ** The entity flattener *)

Definition _serialize_run (run : pyval) : result (gmap string pyval) :=
  let metadata :=
    match py_getattr run "metadata" with Some m => m | None => VDict ∅ end in
  let id :=
    match py_getattr metadata "id" with Some i => i | None => VStr (py_str run) end in
  let workflow_id :=
    match py_getattr run "workflow_id" with Some v => v | None => VNone end in
  let workflow_name :=
    match py_getattr run "workflow_name" with Some v => v | None => VNone end in
  let! status :=
    match py_getattr run "status" with
    | Some st => getattr_exn st "value"
    | None => Ok VNone
    end in
  let created_at :=
    match py_getattr run "created_at" with Some t => VStr (py_str t) | None => VNone end in
  let started_at :=
    match py_getattr run "started_at" with Some t => VStr (py_str t) | None => VNone end in
  let finished_at :=
    match py_getattr run "finished_at" with Some t => VStr (py_str t) | None => VNone end in
  let additional_metadata :=
    match py_getattr run "additional_metadata" with Some v => v | None => VDict ∅ end in
  Ok {[ "id" := id;
        "workflow_id" := workflow_id;
        "workflow_name" := workflow_name;
        "status" := status;
        "created_at" := created_at;
        "started_at" := started_at;
        "finished_at" := finished_at;
        "additional_metadata" := additional_metadata ]}.

Definition _serialize_workflow (workflow : pyval) : gmap string pyval :=
  let metadata :=
    match py_getattr workflow "metadata" with Some m => m | None => VDict ∅ end in
  {[ "id" := match py_getattr metadata "id" with
             | Some i => i
             | None => VStr (py_str workflow)
             end;
     "name" := match py_getattr workflow "name" with Some v => v | None => VNone end;
     "description" :=
       match py_getattr workflow "description" with Some v => v | None => VNone end;
     "version" :=
       match py_getattr workflow "version" with Some v => v | None => VNone end ]}.

(** [hasattr(w, "name") and w.name == workflow_name]. *)
Definition name_matches (workflow_name : string) (w : pyval) : bool :=
  match py_getattr w "name" with
  | Some n => py_eq_str n workflow_name
  | None => false
  end.

(** [w.metadata.id]. *)
Definition workflow_id_of (w : pyval) : result pyval :=
  let! metadata := getattr_exn w "metadata" in
  getattr_exn metadata "id".

(** The comprehension
    [[w.metadata.id for w in rows if hasattr(w, "name") and w.name == workflow_name]]. *)
Fixpoint matching_workflow_ids (workflow_name : string) (rows : list pyval)
    : result (list pyval) :=
  match rows with
  | [] => Ok []
  | w :: rest =>
      if name_matches workflow_name w
      then
        let! id := workflow_id_of w in
        let! ids := matching_workflow_ids workflow_name rest in
        Ok (id :: ids)
      else matching_workflow_ids workflow_name rest
  end.

(** ** The world and the monad of the operations *)

Record world : Type := World {
  now : Z;
  client_cache : option Hatchet;
  ctor_calls : nat;
  remote_state : R;
  sent : list request
}.

Definition M (A : Type) : Type := world -> result A * world.

Definition ret {A} (a : A) : M A := fun w => (Ok a, w).

Definition bind {A B} (m : M A) (k : A -> M B) : M B :=
  fun w =>
    match m w with
    | (Ok a, w') => k a w'
    | (Raise e, w') => (Raise e, w')
    end.

Notation "x <- m ;; k" := (bind m (fun x => k))
  (at level 100, m at next level, right associativity).

Definition lift {A} (r : result A) : M A := fun w => (r, w).

(** [try: body  except Exception as e: handler(e)]. *)
Definition try_except {A} (body : M A) (handler : pyexn -> M A) : M A :=
  fun w =>
    match body w with
    | (Ok a, w') => (Ok a, w')
    | (Raise e, w') =>
        if is_Exception (exn_cls e) then handler e w' else (Raise e, w')
    end.

(** [datetime.now(tz=timezone.utc)]. *)
Definition datetime_now : M Z := fun w => (Ok (now w), w).

(** One run of [Hatchet(debug=False)]. *)
Definition construct_hatchet : M Hatchet :=
  fun w =>
    let '(r, s') := hatchet_init remote (remote_state w) in
    let w' := World (now w) (client_cache w) (S (ctor_calls w)) s' (sent w) in
    match r with
    | Ok _ => (Ok (Handle (ctor_calls w)), w')
    | Raise e => (Raise e, w')
    end.

(** [@lru_cache(maxsize=1)] around the argument-less constructor call: a
    filled slot answers, an empty one runs the body and keeps what it
    returns; a raised exception is not kept. *)
Definition get_hatchet_client : M Hatchet :=
  fun w =>
    match client_cache w with
    | Some h => (Ok h, w)
    | None =>
        match construct_hatchet w with
        | (Ok h, w') =>
            (Ok h, World (now w') (Some h) (ctor_calls w') (remote_state w') (sent w'))
        | (Raise e, w') => (Raise e, w')
        end
    end.

(** A call through the handle: the request is recorded and answered. *)
Definition remote_call (hatchet : Hatchet) (req : request) : M pyval :=
  fun w =>
    let '(r, s') := serve remote req (remote_state w) in
    (r, World (now w) (client_cache w) (ctor_calls w) s' (sent w ++ [req])).

(** The state of the process when the module has just been imported. *)
Definition imported (t : Z) (s : R) : world := World t None 0 s [].

Definition error_dict (e : pyexn) : gmap string pyval :=
  {[ "error" := VStr (exn_str e) ]}.

(** ** The operations *)

(** The [if workflow_name:] block, the same statements in [list_runs] and
    in [get_queue_metrics]: list the workflows, keep the ids of those
    called [workflow_name], and set [params["workflow_ids"]] when any is
    kept. *)
Definition add_workflow_filter (hatchet : Hatchet) (workflow_name : option string)
    (params : gmap string pyval) : M (gmap string pyval) :=
  match workflow_name with
  | Some name =>
      if str_truthy workflow_name then
        workflows <- remote_call hatchet WorkflowsList ;;
        rows <- lift (rows_or_empty workflows) ;;
        workflow_ids <- lift (matching_workflow_ids name rows) ;;
        ret (match workflow_ids with
             | [] => params
             | _ => <["workflow_ids" := VList workflow_ids]> params
             end)
      else ret params
  | None => ret params
  end.

(** The [try] block of [list_workflows]. *)
Definition list_workflows_try : M (list (gmap string pyval)) :=
  hatchet <- get_hatchet_client ;;
  workflows <- remote_call hatchet WorkflowsList ;;
  rows <- lift (rows_or_empty workflows) ;;
  ret (_serialize_workflow <$> rows).

Definition list_workflows : M (list (gmap string pyval)) :=
  try_except list_workflows_try
    (fun e => ret [error_dict e]).

(** The [try] block of [list_runs]. [since_hours] and [limit] are [None]
    when the caller omits them and the defaults of the signature apply. *)
Definition list_runs_try (workflow_name status : option string)
    (since_hours limit : option Z) : M (list (gmap string pyval)) :=
  let since_hours := default 24 since_hours in
  let limit := default 50 limit in
  hatchet <- get_hatchet_client ;;
  t <- datetime_now ;;
  delta <- lift (timedelta_hours since_hours) ;;
  since <- lift (datetime_sub t delta) ;;
  let params : gmap string pyval :=
    {[ "since" := VDatetime since; "limit" := VInt limit ]} in
  let params := add_status_filter status params in
  params <- add_workflow_filter hatchet workflow_name params ;;
  runs <- remote_call hatchet (RunsList params) ;;
  rows <- lift (rows_or_empty runs) ;;
  lift (rmapM _serialize_run rows).

Definition list_runs (workflow_name status : option string)
    (since_hours limit : option Z) : M (list (gmap string pyval)) :=
  try_except (list_runs_try workflow_name status since_hours limit)
    (fun e => ret [error_dict e]).

(** The [try] block of [get_run_status]. *)
Definition get_run_status_try (run_id : string) : M (gmap string pyval) :=
  hatchet <- get_hatchet_client ;;
  status <- remote_call hatchet (RunsGet run_id) ;;
  lift (_serialize_run status).

Definition get_run_status (run_id : string) : M (gmap string pyval) :=
  try_except (get_run_status_try run_id)
    (fun e => ret ({[ "error" := VStr (exn_str e); "run_id" := VStr run_id ]}
                     : gmap string pyval)).

(** The [try] block of [get_run_result]. *)
Definition get_run_result_try (run_id : string) : M (gmap string pyval) :=
  hatchet <- get_hatchet_client ;;
  result <- remote_call hatchet (RunsGetResult run_id) ;;
  ret ({[ "run_id" := VStr run_id; "result" := result ]} : gmap string pyval).

Definition get_run_result (run_id : string) : M (gmap string pyval) :=
  try_except (get_run_result_try run_id)
    (fun e => ret ({[ "error" := VStr (exn_str e); "run_id" := VStr run_id ]}
                     : gmap string pyval)).

Definition initial_counts : gmap string Z :=
  {[ "queued" := 0;
     "running" := 0;
     "completed" := 0;
     "failed" := 0;
     "cancelled" := 0;
     "total" := 0 ]}.

(** [counts[key] += 1]. *)
Definition increment (key : string) (counts : gmap string Z)
    : result (gmap string Z) :=
  match counts !! key with
  | Some n => Ok (<[key := n + 1]> counts)
  | None => Raise (Exn KeyError ("'" ++ key ++ "'"))
  end.

(** [status.value.lower() if hasattr(status, "value") else str(status).lower()]. *)
Definition status_name_of (status : pyval) : result string :=
  match py_getattr status "value" with
  | Some v => py_lower v
  | None => Ok (lower (py_str status))
  end.

(** The body of the counting loop of [get_queue_metrics]. *)
Definition tally_run (counts : gmap string Z) (run : pyval)
    : result (gmap string Z) :=
  let! counts := increment "total" counts in
  match py_getattr run "status" with
  | Some status =>
      let! status_name := status_name_of status in
      match counts !! status_name with
      | Some _ => increment status_name counts
      | None => Ok counts
      end
  | None => Ok counts
  end.

Fixpoint tally (counts : gmap string Z) (rows : list pyval)
    : result (gmap string Z) :=
  match rows with
  | [] => Ok counts
  | run :: rest =>
      let! counts := tally_run counts run in
      tally counts rest
  end.

(** The [try] block of [get_queue_metrics]. *)
Definition get_queue_metrics_try (workflow_name : option string)
    : M (gmap string pyval) :=
  hatchet <- get_hatchet_client ;;
  t <- datetime_now ;;
  delta <- lift (timedelta_hours 24) ;;
  since <- lift (datetime_sub t delta) ;;
  let params : gmap string pyval :=
    {[ "since" := VDatetime since; "limit" := VInt 1000 ]} in
  params <- add_workflow_filter hatchet workflow_name params ;;
  runs <- remote_call hatchet (RunsList params) ;;
  rows <- lift (rows_or_empty runs) ;;
  counts <- lift (tally initial_counts rows) ;;
  ret ({[ "workflow_name" := VStr (or_all workflow_name);
          "time_range_hours" := VInt 24;
          "counts" := VDict (VInt <$> counts) ]} : gmap string pyval).

Definition get_queue_metrics (workflow_name : option string)
    : M (gmap string pyval) :=
  try_except (get_queue_metrics_try workflow_name)
    (fun e => ret (error_dict e)).

(** The [try] block of [search_runs]. *)
Definition search_runs_try (metadata_key metadata_value : string)
    (status : option string) (since_hours limit : option Z)
    : M (list (gmap string pyval)) :=
  let since_hours := default 24 since_hours in
  let limit := default 50 limit in
  hatchet <- get_hatchet_client ;;
  t <- datetime_now ;;
  delta <- lift (timedelta_hours since_hours) ;;
  since <- lift (datetime_sub t delta) ;;
  let params : gmap string pyval :=
    {[ "since" := VDatetime since;
       "limit" := VInt limit;
       "additional_metadata" := VDict {[ metadata_key := VStr metadata_value ]} ]} in
  let params := add_status_filter status params in
  runs <- remote_call hatchet (RunsList params) ;;
  rows <- lift (rows_or_empty runs) ;;
  lift (rmapM _serialize_run rows).

Definition search_runs (metadata_key metadata_value : string)
    (status : option string) (since_hours limit : option Z)
    : M (list (gmap string pyval)) :=
  try_except (search_runs_try metadata_key metadata_value status since_hours limit)
    (fun e => ret [error_dict e]).

(** ** Vocabulary of the statements *)

(** Started at clock reading [t], [m] sends only requests satisfying [P],
    leaves the clock alone, and any value it returns satisfies [Q]. *)
Definition sends {A} (t : Z) (P : request -> Prop) (Q : A -> Prop) (m : M A) : Prop :=
  forall w, now w = t ->
    exists new,
      sent (m w).2 = (sent w ++ new)%list /\
      Forall P new /\
      now (m w).2 = t /\
      (forall a, (m w).1 = Ok a -> Q a).

(** Started with a client in the cache, [m] leaves it there and runs the
    constructor no more. *)
Definition keeps_client {A} (m : M A) : Prop :=
  forall w h,
    client_cache w = Some h ->
    client_cache (m w).2 = Some h /\ ctor_calls (m w).2 = ctor_calls w.

(** A runs query that carries no status filter (other requests never do). *)
Definition no_status_filter (req : request) : Prop :=
  match req with
  | RunsList params => params !! "statuses" = None
  | _ => True
  end.

(** What a runs query built on [base] may be: [base] itself, or [base]
    with a workflow filter added; the only other request is the workflow
    listing. *)
Definition query_on (base : gmap string pyval) (req : request) : Prop :=
  req = WorkflowsList \/
  req = RunsList base \/
  exists ids, req = RunsList (<["workflow_ids" := VList ids]> base).

(** The window [h] hours back from [t] is representable: the [timedelta]
    and the resulting [datetime] are both in range. *)
Definition window_ok (t h : Z) : Prop :=
  (- MAX_DELTA_DAYS <= (h * US_PER_HOUR) `div` US_PER_DAY <= MAX_DELTA_DAYS)%Z /\
  (0 <= t - h * US_PER_HOUR < MAX_DATETIME_US)%Z.

(** [n] calls of the accessor in sequence: what each returned, and the
    world they leave. *)
Fixpoint call_client (n : nat) (w : world) : list (result Hatchet) * world :=
  match n with
  | O => ([], w)
  | S k =>
      let '(r, w') := get_hatchet_client w in
      let '(rs, w'') := call_client k w' in
      (r :: rs, w'')
  end.

Definition is_raise {A} (r : result A) : bool :=
  match r with
  | Ok _ => false
  | Raise _ => true
  end.



(** Whether the counting loop files [run] under the name [k]. *)
Definition filed_under (k : string) (run : pyval) : bool :=
  match py_getattr run "status" with
  | Some status =>
      match status_name_of status with
      | Ok n => String.eqb n k
      | Raise _ => false
      end
  | None => false
  end.

Definition count_filed (k : string) (rows : list pyval) : Z :=
  Z.of_nat (length (filter (fun run => filed_under k run = true) rows)).

(** A metrics result with the echoed workflow name replaced by [name];
    an error value has no such key and stays as it is. *)
Definition echo_as (name : string) (r : result (gmap string pyval))
    : result (gmap string pyval) :=
  match r with
  | Ok d =>
      Ok (match d !! "workflow_name" with
          | Some _ => <["workflow_name" := VStr name]> d
          | None => d
          end)
  | Raise e => Raise e
  end.

(** The keys of a flattened run. *)
Definition run_keys : gset string :=
  {[ "id"; "workflow_id"; "workflow_name"; "status";
     "created_at"; "started_at"; "finished_at"; "additional_metadata" ]}.

(** [x.metadata.id], when both attributes are there. *)
Definition nested_id (x : pyval) : option pyval :=
  match py_getattr x "metadata" with
  | Some metadata => py_getattr metadata "id"
  | None => None
  end.

(** The value of counter [k], 0 for a name that is no counter. *)
Definition counter (counts : gmap string Z) (k : string) : Z :=
  default 0%Z (counts !! k).

(** [m] sends at most [n] requests, from every world. *)
Definition calls_at_most {A} (n : nat) (m : M A) : Prop :=
  forall w, exists new, sent (m w).2 = (sent w ++ new)%list /\ (length new <= n)%nat.

(** A runs query with the exact-match metadata filter added to it. *)
Definition with_metadata (key value : string) (req : request) : request :=
  match req with
  | RunsList params =>
      RunsList (<["additional_metadata" := VDict {[ key := VStr value ]}]> params)
  | _ => req
  end.

(* ================================================================= *)
(** * Proofs *)

(** ** Strings and the status vocabulary *)

Lemma ascii_lower_upper (c : ascii) : ascii_lower (ascii_upper c) = ascii_lower c.
Proof. destruct c as [[] [] [] [] [] [] [] []]; reflexivity. Qed.

Lemma lower_case_mixture (s t : string) :
  case_mixture s t -> lower t = lower s.
Proof.
  induction 1 as [|c s t _ IH|c s t _ IH]; simpl.
  - reflexivity.
  - now rewrite IH.
  - now rewrite IH, ascii_lower_upper.
Qed.

Lemma case_mixtures_sound (s t : string) :
  t ∈ case_mixtures s -> case_mixture s t.
Proof.
  revert t; induction s as [|c s IH]; simpl; intros t Ht.
  - apply list_elem_of_singleton in Ht as ->. constructor.
  - apply elem_of_app in Ht as [Ht|Ht];
      apply list_elem_of_fmap in Ht as (u & -> & Hu); constructor; auto.
Qed.

(** The guard [status and ...] never changes the lookup: the empty string
    is not a key of [STATUS_MAP]. *)
Lemma translate_lookup (s : string) :
  translate (Some s) = STATUS_MAP !! lower s.
Proof.
  unfold translate, str_truthy.
  destruct (String.eqb_spec s "") as [->|_]; reflexivity.
Qed.

Lemma translate_mixture (name s : string) :
  case_mixture name s -> translate (Some s) = STATUS_MAP !! lower name.
Proof. intros H. now rewrite translate_lookup, (lower_case_mixture _ _ H). Qed.

(** C2: every case mixture of a recognised status name translates to the
    code of that name (queued, running, completed, failed, cancelled), and
    the mixtures of "completed" and of "succeeded" translate to one and the
    same code. *)
Theorem translate_recognized (s : string) :
  (case_mixture "queued" s -> translate (Some s) = Some QUEUED) /\
  (case_mixture "running" s -> translate (Some s) = Some RUNNING) /\
  (case_mixture "completed" s -> translate (Some s) = Some COMPLETED) /\
  (case_mixture "succeeded" s -> translate (Some s) = Some COMPLETED) /\
  (case_mixture "failed" s -> translate (Some s) = Some FAILED) /\
  (case_mixture "cancelled" s -> translate (Some s) = Some CANCELLED) /\
  (forall s', case_mixture "completed" s -> case_mixture "succeeded" s' ->
              translate (Some s) = translate (Some s')).
Proof.
  repeat split; try (intros H; rewrite (translate_mixture _ _ H); reflexivity).
  intros s' H H'.
  rewrite (translate_mixture _ _ H), (translate_mixture _ _ H'). reflexivity.
Qed.

(** ** The entity flattener *)

Lemma serialize_run_enum_status (run : pyval) (cls member : string) (value : pyval) :
  py_getattr run "status" = Some (VEnum cls member value) ->
  exists d, _serialize_run run = Ok d /\ d !! "status" = Some value.
Proof.
  intros H. unfold _serialize_run. rewrite H. simpl.
  eexists; split; [reflexivity|]. now simplify_map_eq.
Qed.

Lemma serialize_run_no_status (run : pyval) :
  py_getattr run "status" = None ->
  exists d, _serialize_run run = Ok d /\ d !! "status" = Some VNone.
Proof.
  intros H. unfold _serialize_run. rewrite H. simpl.
  eexists; split; [reflexivity|]. now simplify_map_eq.
Qed.

(** The counting loop of [get_queue_metrics] does take a plain string. *)
Lemma status_name_of_str (s : string) : status_name_of (VStr s) = Ok (lower s).
Proof. reflexivity. Qed.

(** C1, at the input where the flattener departs from it: a run whose
    status is already a plain string is not flattened at all; reading
    [.value] off the string raises [AttributeError]. *)
Theorem serialize_run_str_status_raises (run : pyval) (s : string) :
  py_getattr run "status" = Some (VStr s) ->
  _serialize_run run = Raise (Exn AttributeError "'str' object has no attribute 'value'").
Proof. intros H. unfold _serialize_run. now rewrite H. Qed.

(** C5: a run object with none of the optional attributes flattens to the
    record whose [id] is the string form of the whole object, whose
    [additional_metadata] is the empty mapping and whose other fields are
    all null. *)
Theorem serialize_run_bare (run : pyval) :
  py_getattr run "metadata" = None ->
  py_getattr run "workflow_id" = None ->
  py_getattr run "workflow_name" = None ->
  py_getattr run "status" = None ->
  py_getattr run "created_at" = None ->
  py_getattr run "started_at" = None ->
  py_getattr run "finished_at" = None ->
  py_getattr run "additional_metadata" = None ->
  _serialize_run run =
    Ok {[ "id" := VStr (py_str run);
          "workflow_id" := VNone;
          "workflow_name" := VNone;
          "status" := VNone;
          "created_at" := VNone;
          "started_at" := VNone;
          "finished_at" := VNone;
          "additional_metadata" := VDict ∅ ]}.
Proof.
  intros Hm Hi Hn Hs Hc Hb Hf Ha. unfold _serialize_run.
  now rewrite Hm, Hi, Hn, Hs, Hc, Hb, Hf, Ha.
Qed.

(** ** Rules for [sends] *)

Lemma sends_post {A} t P (Q Q' : A -> Prop) (m : M A) :
  sends t P Q m -> (forall a, Q a -> Q' a) -> sends t P Q' m.
Proof.
  intros Hm HQ w Hw. destruct (Hm w Hw) as (new & Hs & HP & Hn & Ha).
  exists new; eauto 10.
Qed.

Lemma sends_ret {A} t P (a : A) : sends t P (fun x => x = a) (ret a).
Proof.
  intros w Hw. exists []. simpl. rewrite app_nil_r.
  repeat split; auto; intros; congruence.
Qed.

Lemma sends_lift {A} t P (r : result A) : sends t P (fun x => r = Ok x) (lift r).
Proof.
  intros w Hw. exists []. simpl. rewrite app_nil_r.
  repeat split; auto.
Qed.

Lemma sends_now t P : sends t P (fun x => x = t) datetime_now.
Proof.
  intros w Hw. exists []. simpl. rewrite app_nil_r.
  repeat split; auto; intros; congruence.
Qed.

Lemma sends_client t P : sends t P (fun _ => True) get_hatchet_client.
Proof.
  intros w Hw. exists []. unfold get_hatchet_client, construct_hatchet.
  rewrite app_nil_r.
  destruct (client_cache w); simpl; [auto|].
  destruct (hatchet_init remote (remote_state w)) as [[[]|e] s']; simpl; auto.
Qed.

Lemma sends_call t (P : request -> Prop) hatchet req :
  P req -> sends t P (fun _ => True) (remote_call hatchet req).
Proof.
  intros HP w Hw. exists [req]. unfold remote_call.
  destruct (serve remote req (remote_state w)) as [r s']; simpl; auto.
Qed.

Lemma sends_bind {A B} t P (Q : A -> Prop) (Q' : B -> Prop) (m : M A) (k : A -> M B) :
  sends t P Q m -> (forall a, Q a -> sends t P Q' (k a)) -> sends t P Q' (bind m k).
Proof.
  intros Hm Hk w Hw. destruct (Hm w Hw) as (new1 & Hs1 & HP1 & Hn1 & Ha1).
  unfold bind. destruct (m w) as [[a|e] w1]; simpl in *.
  - destruct (Hk a (Ha1 a eq_refl) w1 Hn1) as (new2 & Hs2 & HP2 & Hn2 & Ha2).
    exists (new1 ++ new2)%list. rewrite Hs2, Hs1, app_assoc.
    repeat split; auto using Forall_app; try (now apply Forall_app).
  - exists new1. repeat split; auto; intros; congruence.
Qed.

Lemma sends_try {A} t P (Q Q' : A -> Prop) (body : M A) (handler : pyexn -> M A) :
  sends t P Q body -> (forall e, sends t P Q' (handler e)) ->
  sends t P (fun a => Q a \/ Q' a) (try_except body handler).
Proof.
  intros Hm Hh w Hw. destruct (Hm w Hw) as (new1 & Hs1 & HP1 & Hn1 & Ha1).
  unfold try_except. destruct (body w) as [[a|e] w1]; simpl in *.
  - exists new1. repeat split; auto; intros ? [= <-]; left; auto.
  - destruct (is_Exception (exn_cls e)).
    + destruct (Hh e w1 Hn1) as (new2 & Hs2 & HP2 & Hn2 & Ha2).
      exists (new1 ++ new2)%list. rewrite Hs2, Hs1, app_assoc.
      repeat split; auto using Forall_app; try (now apply Forall_app).
    + exists new1. repeat split; auto; intros; congruence.
Qed.

(** ** Time windows *)

Lemma timedelta_hours_ok (h d : Z) : timedelta_hours h = Ok d -> d = (h * US_PER_HOUR)%Z.
Proof.
  unfold timedelta_hours. repeat case_bool_decide; congruence.
Qed.

Lemma datetime_sub_ok (t d r : Z) : datetime_sub t d = Ok r -> r = (t - d)%Z.
Proof. unfold datetime_sub. case_bool_decide; congruence. Qed.

Lemma window_ok_since (t h : Z) :
  window_ok t h ->
  timedelta_hours h = Ok (h * US_PER_HOUR)%Z /\
  datetime_sub t (h * US_PER_HOUR) = Ok (t - h * US_PER_HOUR)%Z.
Proof.
  intros [Hd Hr]. unfold timedelta_hours, datetime_sub.
  rewrite !bool_decide_eq_true_2 by assumption. auto.
Qed.

(** ** The queries the operations send *)

Ltac sends_step :=
  first
    [ eapply sends_bind; [apply sends_client | intros ? _]
    | eapply sends_bind; [apply sends_now | intros ? ->]
    | eapply sends_bind;
        [apply sends_lift
        | let H := fresh "H" in
          intros ? H;
          first [apply timedelta_hours_ok in H as -> | apply datetime_sub_ok in H as -> | idtac]]
    | eapply sends_post; [apply sends_lift | intros; exact I]
    | eapply sends_post; [apply sends_ret | intros; exact I] ].

Lemma sends_guarded {A} t P (body : M A) (on_error : pyexn -> A) :
  sends t P (fun _ => True) body ->
  sends t P (fun _ => True) (try_except body (fun e => ret (on_error e))).
Proof.
  intros Hb. eapply sends_post; [|intros; exact I].
  apply (sends_try _ _ (fun _ => True) (fun _ => True)); [exact Hb|].
  intros e. eapply sends_post; [apply sends_ret | intros; exact I].
Qed.

(** The [if workflow_name:] block leaves [params] as it is or adds
    [workflow_ids] to it, and sends the workflow listing at most. *)
Lemma sends_workflow_filter t base hatchet (workflow_name : option string)
    (params : gmap string pyval) :
  sends t (query_on base)
    (fun p => p = params \/ exists ids, p = <["workflow_ids" := VList ids]> params)
    (add_workflow_filter hatchet workflow_name params).
Proof.
  unfold add_workflow_filter.
  destruct workflow_name as [name|]; [destruct (str_truthy (Some name))|].
  - eapply sends_bind; [apply sends_call; now left | intros workflows _].
    eapply sends_bind; [apply sends_lift | intros rows _].
    eapply sends_bind; [apply sends_lift | intros ids _].
    eapply sends_post; [apply sends_ret|]. intros ? ->.
    destruct ids; eauto.
  - eapply sends_post; [apply sends_ret|]. intros ? ->. now left.
  - eapply sends_post; [apply sends_ret|]. intros ? ->. now left.
Qed.

Lemma list_runs_sends t (workflow_name status : option string) (since_hours limit : option Z) :
  sends t
    (query_on (add_status_filter status
                 {[ "since" := VDatetime (t - default 24 since_hours * US_PER_HOUR);
                    "limit" := VInt (default 50 limit) ]}))
    (fun _ => True)
    (list_runs workflow_name status since_hours limit).
Proof.
  unfold list_runs, list_runs_try. apply sends_guarded.
  do 4 sends_step.
  eapply sends_bind; [apply sends_workflow_filter|].
  intros p Hp.
  eapply sends_bind; [apply sends_call | intros runs _; do 2 sends_step].
  destruct Hp as [->|[ids ->]]; [right; left|right; right]; eauto.
Qed.


Lemma search_runs_sends t (metadata_key metadata_value : string)
    (status : option string) (since_hours limit : option Z) :
  sends t
    (eq (RunsList
           (add_status_filter status
              {[ "since" := VDatetime (t - default 24 since_hours * US_PER_HOUR);
                 "limit" := VInt (default 50 limit);
                 "additional_metadata" := VDict {[ metadata_key := VStr metadata_value ]} ]})))
    (fun _ => True)
    (search_runs metadata_key metadata_value status since_hours limit).
Proof.
  unfold search_runs, search_runs_try. apply sends_guarded.
  do 4 sends_step.
  eapply sends_bind; [apply sends_call; reflexivity | intros runs _; do 2 sends_step].
Qed.

Lemma get_hatchet_client_ok (w w1 : world) (h : Hatchet) :
  get_hatchet_client w = (Ok h, w1) ->
  client_cache w1 = Some h /\ now w1 = now w /\ sent w1 = sent w.
Proof.
  unfold get_hatchet_client, construct_hatchet.
  destruct (client_cache w) as [h'|] eqn:Hc.
  - intros [= <- <-]. auto.
  - destruct (hatchet_init remote (remote_state w)) as [[[]|e] s']; simpl;
      intros [= <- <-]; auto.
Qed.

Lemma get_hatchet_client_cached (w : world) (h : Hatchet) :
  client_cache w = Some h -> get_hatchet_client w = (Ok h, w).
Proof. intros H. unfold get_hatchet_client. now rewrite H. Qed.

(** *** Calls whose status argument translates to nothing *)

Lemma add_status_filter_none (status : option string) (params : gmap string pyval) :
  translate status = None -> add_status_filter status params = params.
Proof. intros H. unfold add_status_filter. now rewrite H. Qed.

Lemma list_runs_untranslated (status workflow_name : option string)
    (since_hours limit : option Z) :
  translate status = None ->
  list_runs workflow_name status since_hours limit
  = list_runs workflow_name None since_hours limit.
Proof. intros H. unfold list_runs, list_runs_try, add_status_filter. now rewrite H. Qed.

Lemma search_runs_untranslated (status : option string) (key value : string)
    (since_hours limit : option Z) :
  translate status = None ->
  search_runs key value status since_hours limit
  = search_runs key value None since_hours limit.
Proof. intros H. unfold search_runs, search_runs_try, add_status_filter. now rewrite H. Qed.

Lemma list_runs_no_status_filter (status workflow_name : option string)
    (since_hours limit : option Z) (w : world) :
  translate status = None ->
  exists new,
    sent (list_runs workflow_name status since_hours limit w).2 = (sent w ++ new)%list /\
    Forall no_status_filter new.
Proof.
  intros H.
  destruct (list_runs_sends (now w) workflow_name status since_hours limit w eq_refl)
    as (new & Hnew & HP & _).
  exists new. split; [exact Hnew|].
  eapply Forall_impl; [exact HP|]. rewrite (add_status_filter_none _ _ H).
  intros req [->|[->|[ids ->]]]; simpl; auto.
Qed.

Lemma search_runs_no_status_filter (status : option string) (key value : string)
    (since_hours limit : option Z) (w : world) :
  translate status = None ->
  exists new,
    sent (search_runs key value status since_hours limit w).2 = (sent w ++ new)%list /\
    Forall no_status_filter new.
Proof.
  intros H.
  destruct (search_runs_sends (now w) key value status since_hours limit w eq_refl)
    as (new & Hnew & HP & _).
  exists new. split; [exact Hnew|].
  eapply Forall_impl; [exact HP|]. rewrite (add_status_filter_none _ _ H).
  intros req <-. reflexivity.
Qed.

(** *** Calls without a workflow name *)

Lemma list_runs_no_name_sends t (status : option string) (since_hours limit : option Z) :
  sends t (fun req => req <> WorkflowsList) (fun _ => True)
    (list_runs None status since_hours limit).
Proof.
  unfold list_runs, list_runs_try. apply sends_guarded.
  do 4 sends_step.
  eapply sends_bind; [apply sends_ret | intros p _].
  eapply sends_bind; [apply sends_call; discriminate | intros runs _; do 2 sends_step].
Qed.

Lemma get_queue_metrics_no_name_sends t :
  sends t (fun req => req <> WorkflowsList)
    (fun d => d !! "workflow_name" = Some (VStr "all") \/ exists e, d = error_dict e)
    (get_queue_metrics None).
Proof.
  unfold get_queue_metrics, get_queue_metrics_try.
  apply (sends_try _ _ (fun d => d !! "workflow_name" = Some (VStr "all"))
                   (fun d => exists e, d = error_dict e)).
  - eapply sends_bind; [apply sends_client | intros ? _].
    eapply sends_bind; [apply sends_now | intros ? ->].
    eapply sends_bind; [apply sends_lift | intros ? _].
    eapply sends_bind; [apply sends_lift | intros ? _].
    eapply sends_bind; [apply sends_ret | intros p _].
    eapply sends_bind; [apply sends_call; discriminate | intros runs _].
    eapply sends_bind; [apply sends_lift | intros ? _].
    eapply sends_bind; [apply sends_lift | intros ? _].
    eapply sends_post; [apply sends_ret|]. intros d ->. reflexivity.
  - intros e. eapply sends_post; [apply sends_ret|]. intros d ->. now exists e.
Qed.

(** C10: an empty string argument is an absent argument. [status=""] and
    [workflow_name=""] make [list_runs], [search_runs] and
    [get_queue_metrics] the very computations they are without the
    argument: no status filter is added, the workflow listing is never
    requested, and [get_queue_metrics] echoes "all". *)
Theorem empty_string_is_absent :
  (forall workflow_name since_hours limit,
      list_runs workflow_name (Some "") since_hours limit
      = list_runs workflow_name None since_hours limit) /\
  (forall key value since_hours limit,
      search_runs key value (Some "") since_hours limit
      = search_runs key value None since_hours limit) /\
  (forall status since_hours limit,
      list_runs (Some "") status since_hours limit
      = list_runs None status since_hours limit) /\
  get_queue_metrics (Some "") = get_queue_metrics None /\
  (forall workflow_name since_hours limit w,
      exists new,
        sent (list_runs workflow_name (Some "") since_hours limit w).2
        = (sent w ++ new)%list /\ Forall no_status_filter new) /\
  (forall key value since_hours limit w,
      exists new,
        sent (search_runs key value (Some "") since_hours limit w).2
        = (sent w ++ new)%list /\ Forall no_status_filter new) /\
  (forall status since_hours limit w,
      exists new,
        sent (list_runs (Some "") status since_hours limit w).2 = (sent w ++ new)%list /\
        Forall (fun req => req <> WorkflowsList) new) /\
  (forall w,
      exists new,
        sent (get_queue_metrics (Some "") w).2 = (sent w ++ new)%list /\
        Forall (fun req => req <> WorkflowsList) new) /\
  (forall w d,
      (get_queue_metrics (Some "") w).1 = Ok d ->
      d !! "workflow_name" = Some (VStr "all") \/ exists e, d = error_dict e).
Proof.
  repeat split; try reflexivity; intros.
  - now apply list_runs_no_status_filter.
  - now apply search_runs_no_status_filter.
  - destruct (list_runs_no_name_sends (now w) status since_hours limit w eq_refl)
      as (new & Hnew & HP & _).
    now exists new.
  - destruct (get_queue_metrics_no_name_sends (now w) w eq_refl) as (new & Hnew & HP & _).
    now exists new.
  - destruct (get_queue_metrics_no_name_sends (now w) w eq_refl) as (_ & _ & _ & _ & Hd).
    now apply Hd.
Qed.

(** C9: with a recognised status name, every query [search_runs] sends is
    the runs query made of the exact-match metadata filter, the translated
    status code as the only status, the instant [since_hours] (default 24)
    before now and the limit (default 50); and it does send that query
    once it holds a client and the window is representable. *)
Theorem search_runs_query (key value s : string) (since_hours limit : option Z)
    (code : V1TaskStatus) (w : world) :
  translate (Some s) = Some code ->
  let query :=
    RunsList {[ "since" := VDatetime (now w - default 24 since_hours * US_PER_HOUR);
                "limit" := VInt (default 50 limit);
                "additional_metadata" := VDict {[ key := VStr value ]};
                "statuses" := VList [V1TaskStatus_member code] ]} in
  (exists new,
      sent (search_runs key value (Some s) since_hours limit w).2 = (sent w ++ new)%list /\
      Forall (eq query) new) /\
  (forall h w1,
      get_hatchet_client w = (Ok h, w1) ->
      window_ok (now w) (default 24 since_hours) ->
      sent (search_runs key value (Some s) since_hours limit w).2 = (sent w ++ [query])%list).
Proof.
  intros Hs query.
  assert (Hq : forall t,
    RunsList (add_status_filter (Some s)
      {[ "since" := VDatetime t;
         "limit" := VInt (default 50 limit);
         "additional_metadata" := VDict {[ key := VStr value ]} ]})
    = RunsList {[ "since" := VDatetime t;
                  "limit" := VInt (default 50 limit);
                  "additional_metadata" := VDict {[ key := VStr value ]};
                  "statuses" := VList [V1TaskStatus_member code] ]}).
  { intros t. unfold add_status_filter. rewrite Hs. reflexivity. }
  split.
  - destruct (search_runs_sends (now w) key value (Some s) since_hours limit w eq_refl)
      as (new & Hnew & HP & _).
    exists new. split; [exact Hnew|]. now rewrite Hq in HP.
  - intros h w1 Hc [Hd Hr]%window_ok_since.
    destruct (get_hatchet_client_ok _ _ _ Hc) as (_ & Hn & Hsent).
    unfold search_runs, search_runs_try, try_except, bind, datetime_now, lift, remote_call.
    rewrite Hc, Hn, Hd, Hr, Hq. fold query.
    destruct (serve remote query (remote_state w1)) as [[runs|e] s']; simpl.
    + destruct (rows_or_empty runs) as [rows|e]; simpl.
      * destruct (rmapM _serialize_run rows) as [l|e]; simpl;
          [|destruct (is_Exception (exn_cls e))]; simpl; now rewrite Hsent.
      * destruct (is_Exception (exn_cls e)); simpl; now rewrite Hsent.
    + destruct (is_Exception (exn_cls e)); simpl; now rewrite Hsent.
Qed.

(** ** The client accessor *)

Lemma call_client_cached (n : nat) (w : world) (h : Hatchet) :
  client_cache w = Some h -> call_client n w = (replicate n (Ok h), w).
Proof.
  intros H. induction n as [|n IH]; simpl; [reflexivity|].
  now rewrite (get_hatchet_client_cached _ _ H), IH.
Qed.

Lemma get_hatchet_client_ctor (w w1 : world) (r : result Hatchet) :
  get_hatchet_client w = (r, w1) ->
  match r with
  | Ok _ => (ctor_calls w1 <= S (ctor_calls w))%nat
  | Raise _ => ctor_calls w1 = S (ctor_calls w)
  end.
Proof.
  unfold get_hatchet_client, construct_hatchet.
  destruct (client_cache w) as [h'|].
  - intros [= <- <-]. lia.
  - destruct (hatchet_init remote (remote_state w)) as [[[]|e] s']; simpl;
      intros [= <- <-]; simpl; lia.
Qed.

(** However many calls fail first, the constructor runs once per failed
    call and at most once more, and all successful calls agree. *)
Lemma call_client_spec (n : nat) (w w' : world) (rs : list (result Hatchet)) :
  call_client n w = (rs, w') ->
  (ctor_calls w' <= ctor_calls w + length (filter (fun r => is_raise r = true) rs) + 1)%nat /\
  (forall h h', Ok h ∈ rs -> Ok h' ∈ rs -> h = h').
Proof.
  revert w w' rs. induction n as [|n IH]; simpl; intros w w' rs.
  - intros [= <- <-]. split; [lia|]. intros h h' Hh. inversion Hh.
  - destruct (get_hatchet_client w) as [[h0|e] w1] eqn:Hc.
    + destruct (get_hatchet_client_ok _ _ _ Hc) as (Hcache & _ & _).
      pose proof (get_hatchet_client_ctor _ _ _ Hc) as Hn. simpl in Hn.
      rewrite (call_client_cached _ _ _ Hcache). intros [= <- <-]. split.
      * rewrite filter_cons_False by (simpl; congruence). lia.
      * assert (Hall : forall h, Ok h ∈ Ok h0 :: replicate n (Ok h0) -> h = h0).
        { intros h [Hh|Hh%elem_of_replicate]%elem_of_cons; [congruence|].
          destruct Hh; congruence. }
        intros h h' ->%Hall ->%Hall. reflexivity.
    + pose proof (get_hatchet_client_ctor _ _ _ Hc) as Hn. simpl in Hn.
      destruct (call_client n w1) as [rs1 w2] eqn:Hrest.
      destruct (IH _ _ _ Hrest) as (Hle & Hsame).
      intros [= <- <-]. split.
      * rewrite filter_cons_True by reflexivity. simpl. lia.
      * intros h h' [Hh|Hh]%elem_of_cons [Hh'|Hh']%elem_of_cons; try discriminate.
        now apply Hsame.
Qed.

(** *** The operations never disturb a cached client *)

Lemma keeps_ret {A} (a : A) : keeps_client (ret a).
Proof. intros w h H. auto. Qed.

Lemma keeps_lift {A} (r : result A) : keeps_client (lift r).
Proof. intros w h H. auto. Qed.

Lemma keeps_now : keeps_client datetime_now.
Proof. intros w h H. auto. Qed.

Lemma keeps_accessor : keeps_client get_hatchet_client.
Proof. intros w h H. rewrite (get_hatchet_client_cached _ _ H). auto. Qed.

Lemma keeps_call hatchet req : keeps_client (remote_call hatchet req).
Proof.
  intros w h H. unfold remote_call.
  destruct (serve remote req (remote_state w)) as [r s']. auto.
Qed.

Lemma keeps_bind {A B} (m : M A) (k : A -> M B) :
  keeps_client m -> (forall a, keeps_client (k a)) -> keeps_client (bind m k).
Proof.
  intros Hm Hk w h H. destruct (Hm w h H) as [Hc Hn]. unfold bind.
  destruct (m w) as [[a|e] w1]; simpl in *; [|auto].
  destruct (Hk a w1 h Hc) as [Hc' Hn']. split; [exact Hc'|congruence].
Qed.

Lemma keeps_try {A} (body : M A) (handler : pyexn -> M A) :
  keeps_client body -> (forall e, keeps_client (handler e)) ->
  keeps_client (try_except body handler).
Proof.
  intros Hm Hh w h H. destruct (Hm w h H) as [Hc Hn]. unfold try_except.
  destruct (body w) as [[a|e] w1]; simpl in *; [auto|].
  destruct (is_Exception (exn_cls e)); [|auto].
  destruct (Hh e w1 h Hc) as [Hc' Hn']. split; [exact Hc'|congruence].
Qed.

Lemma keeps_workflow_filter hatchet workflow_name params :
  keeps_client (add_workflow_filter hatchet workflow_name params).
Proof.
  unfold add_workflow_filter.
  destruct workflow_name as [name|]; [destruct (str_truthy (Some name))|];
    repeat first [ apply keeps_ret | apply keeps_lift | apply keeps_call
                 | apply keeps_bind; [|intros] ].
Qed.

Ltac keeps_step :=
  first [ apply keeps_ret | apply keeps_lift | apply keeps_now | apply keeps_accessor
        | apply keeps_call | apply keeps_workflow_filter
        | apply keeps_try; [|intros]
        | apply keeps_bind; [|intros] ].

(** C8: once a call of the accessor has returned a handle, every further
    call returns that same handle and leaves the world untouched, so the
    constructor does not run again; a call runs the constructor at most
    once; in any sequence of calls the constructor runs once per failed
    call and at most once more, all successes sharing one handle; no
    operation of the facade empties the cache or builds a client while one
    is cached; and the freshly imported module holds no client and has
    built none. *)
Theorem client_is_cached (w w1 : world) (h : Hatchet) :
  get_hatchet_client w = (Ok h, w1) ->
  get_hatchet_client w1 = (Ok h, w1) /\
  (forall n, call_client n w1 = (replicate n (Ok h), w1)) /\
  (ctor_calls w1 <= S (ctor_calls w))%nat /\
  (forall n w0 w' rs,
      call_client n w0 = (rs, w') ->
      (ctor_calls w' <= ctor_calls w0
                        + length (filter (fun r => is_raise r = true) rs) + 1)%nat /\
      (forall h1 h2, Ok h1 ∈ rs -> Ok h2 ∈ rs -> h1 = h2)) /\
  (keeps_client list_workflows /\
   (forall workflow_name status since_hours limit,
       keeps_client (list_runs workflow_name status since_hours limit)) /\
   (forall run_id, keeps_client (get_run_status run_id)) /\
   (forall run_id, keeps_client (get_run_result run_id)) /\
   (forall workflow_name, keeps_client (get_queue_metrics workflow_name)) /\
   (forall key value status since_hours limit,
       keeps_client (search_runs key value status since_hours limit))) /\
  (forall t s, client_cache (imported t s) = None /\ ctor_calls (imported t s) = 0%nat).
Proof.
  intros Hc. destruct (get_hatchet_client_ok _ _ _ Hc) as (Hcache & _ & _).
  split; [now apply get_hatchet_client_cached|].
  split; [intros n; now apply call_client_cached|].
  split; [exact (get_hatchet_client_ctor _ _ _ Hc)|].
  split; [intros n w0 w' rs; apply call_client_spec|].
  split; [|auto].
  repeat apply conj; intros;
    first [ unfold list_workflows, list_workflows_try
          | unfold list_runs, list_runs_try
          | unfold get_run_status, get_run_status_try
          | unfold get_run_result, get_run_result_try
          | unfold get_queue_metrics, get_queue_metrics_try
          | unfold search_runs, search_runs_try ];
    repeat keeps_step.
Qed.

(** ** The failure contract *)

Lemma try_except_catches {A} (body : M A) (handler : pyexn -> M A) (e : pyexn) (w w' : world) :
  is_Exception (exn_cls e) = true ->
  body w = (Raise e, w') ->
  try_except body handler w = handler e w'.
Proof. intros He Hb. unfold try_except. now rewrite Hb, He. Qed.

Lemma try_except_escapes {A} (body : M A) (handler : pyexn -> M A) (e : pyexn) (w w' : world) :
  is_Exception (exn_cls e) = false ->
  body w = (Raise e, w') ->
  try_except body handler w = (Raise e, w').
Proof. intros He Hb. unfold try_except. now rewrite Hb, He. Qed.

(** A handler that only returns lets no instance of [Exception] out. *)
Lemma try_except_guard {A} (body : M A) (handler : pyexn -> M A) (e : pyexn) (w : world) :
  (forall e' w', exists a, handler e' w' = (Ok a, w')) ->
  (try_except body handler w).1 = Raise e ->
  is_Exception (exn_cls e) = false.
Proof.
  intros Hh. unfold try_except. destruct (body w) as [[a|e'] w']; simpl; [discriminate|].
  destruct (is_Exception (exn_cls e')) eqn:He; simpl.
  - destruct (Hh e' w') as [a ->]. discriminate.
  - now intros [= <-].
Qed.

Ltac unfold_operations :=
  try unfold list_workflows in *; try unfold list_runs in *;
  try unfold get_run_status in *; try unfold get_run_result in *;
  try unfold get_queue_metrics in *; try unfold search_runs in *.

Lemma get_run_status_remote_raises (run_id : string) (e : pyexn)
    (w w1 : world) (h : Hatchet) (s' : R) :
  is_Exception (exn_cls e) = true ->
  get_hatchet_client w = (Ok h, w1) ->
  serve remote (RunsGet run_id) (remote_state w1) = (Raise e, s') ->
  (get_run_status run_id w).1
  = Ok {[ "error" := VStr (exn_str e); "run_id" := VStr run_id ]}.
Proof.
  intros He Hc Hs.
  unfold get_run_status, get_run_status_try, try_except, bind, remote_call.
  now rewrite Hc, Hs, He.
Qed.

Lemma get_run_status_flatten_raises (run_id : string) (e : pyexn)
    (w w1 : world) (h : Hatchet) (run : pyval) (s' : R) :
  is_Exception (exn_cls e) = true ->
  get_hatchet_client w = (Ok h, w1) ->
  serve remote (RunsGet run_id) (remote_state w1) = (Ok run, s') ->
  _serialize_run run = Raise e ->
  (get_run_status run_id w).1
  = Ok {[ "error" := VStr (exn_str e); "run_id" := VStr run_id ]}.
Proof.
  intros He Hc Hs Hf.
  unfold get_run_status, get_run_status_try, try_except, bind, remote_call, lift.
  now rewrite Hc, Hs, Hf, He.
Qed.

Lemma get_run_result_remote_raises (run_id : string) (e : pyexn)
    (w w1 : world) (h : Hatchet) (s' : R) :
  is_Exception (exn_cls e) = true ->
  get_hatchet_client w = (Ok h, w1) ->
  serve remote (RunsGetResult run_id) (remote_state w1) = (Raise e, s') ->
  (get_run_result run_id w).1
  = Ok {[ "error" := VStr (exn_str e); "run_id" := VStr run_id ]}.
Proof.
  intros He Hc Hs.
  unfold get_run_result, get_run_result_try, try_except, bind, remote_call.
  now rewrite Hc, Hs, He.
Qed.

Lemma get_run_status_remote_escapes (run_id : string) (e : pyexn)
    (w w1 : world) (h : Hatchet) (s' : R) :
  is_Exception (exn_cls e) = false ->
  get_hatchet_client w = (Ok h, w1) ->
  serve remote (RunsGet run_id) (remote_state w1) = (Raise e, s') ->
  (get_run_status run_id w).1 = Raise e.
Proof.
  intros He Hc Hs.
  unfold get_run_status, get_run_status_try, try_except, bind, remote_call.
  now rewrite Hc, Hs, He.
Qed.

Lemma get_run_result_remote_escapes (run_id : string) (e : pyexn)
    (w w1 : world) (h : Hatchet) (s' : R) :
  is_Exception (exn_cls e) = false ->
  get_hatchet_client w = (Ok h, w1) ->
  serve remote (RunsGetResult run_id) (remote_state w1) = (Raise e, s') ->
  (get_run_result run_id w).1 = Raise e.
Proof.
  intros He Hc Hs.
  unfold get_run_result, get_run_result_try, try_except, bind, remote_call.
  now rewrite Hc, Hs, He.
Qed.

(** C6, for the exceptions [except Exception] catches: whatever instance
    [e] of [Exception] the [try] block of an operation raises, be it from
    the client, the remote call or the flattening, the operation returns
    the error value carrying [str(e)] (inside a one-element list for the
    list-returning operations, with [run_id] echoed by [get_run_status]
    and [get_run_result]) and raises nothing; and no operation ever lets an
    instance of [Exception] through. An exception that is no instance of
    [Exception] ([asyncio.CancelledError], [KeyboardInterrupt],
    [SystemExit], [GeneratorExit]) is not caught: whatever such exception
    the [try] block of an operation raises, the operation raises it to its
    caller, in the world the block left. *)
Theorem exceptions_become_errors (e : pyexn) (w w' : world) :
  is_Exception (exn_cls e) = true ->
  (list_workflows_try w = (Raise e, w') ->
   list_workflows w = (Ok [error_dict e], w')) /\
  (forall workflow_name status since_hours limit,
      list_runs_try workflow_name status since_hours limit w = (Raise e, w') ->
      list_runs workflow_name status since_hours limit w = (Ok [error_dict e], w')) /\
  (forall run_id,
      get_run_status_try run_id w = (Raise e, w') ->
      get_run_status run_id w
      = (Ok {[ "error" := VStr (exn_str e); "run_id" := VStr run_id ]}, w')) /\
  (forall run_id,
      get_run_result_try run_id w = (Raise e, w') ->
      get_run_result run_id w
      = (Ok {[ "error" := VStr (exn_str e); "run_id" := VStr run_id ]}, w')) /\
  (forall workflow_name,
      get_queue_metrics_try workflow_name w = (Raise e, w') ->
      get_queue_metrics workflow_name w = (Ok {[ "error" := VStr (exn_str e) ]}, w')) /\
  (forall key value status since_hours limit,
      search_runs_try key value status since_hours limit w = (Raise e, w') ->
      search_runs key value status since_hours limit w = (Ok [error_dict e], w')) /\
  (forall run_id h w1 s',
      get_hatchet_client w = (Ok h, w1) ->
      serve remote (RunsGet run_id) (remote_state w1) = (Raise e, s') ->
      (get_run_status run_id w).1
      = Ok {[ "error" := VStr (exn_str e); "run_id" := VStr run_id ]}) /\
  (forall run_id h w1 run s',
      get_hatchet_client w = (Ok h, w1) ->
      serve remote (RunsGet run_id) (remote_state w1) = (Ok run, s') ->
      _serialize_run run = Raise e ->
      (get_run_status run_id w).1
      = Ok {[ "error" := VStr (exn_str e); "run_id" := VStr run_id ]}) /\
  (forall run_id h w1 s',
      get_hatchet_client w = (Ok h, w1) ->
      serve remote (RunsGetResult run_id) (remote_state w1) = (Raise e, s') ->
      (get_run_result run_id w).1
      = Ok {[ "error" := VStr (exn_str e); "run_id" := VStr run_id ]}) /\
  (forall e0,
      ((list_workflows w).1 = Raise e0 -> is_Exception (exn_cls e0) = false) /\
      (forall workflow_name status since_hours limit,
          (list_runs workflow_name status since_hours limit w).1 = Raise e0 ->
          is_Exception (exn_cls e0) = false) /\
      (forall run_id,
          (get_run_status run_id w).1 = Raise e0 -> is_Exception (exn_cls e0) = false) /\
      (forall run_id,
          (get_run_result run_id w).1 = Raise e0 -> is_Exception (exn_cls e0) = false) /\
      (forall workflow_name,
          (get_queue_metrics workflow_name w).1 = Raise e0 ->
          is_Exception (exn_cls e0) = false) /\
      (forall key value status since_hours limit,
          (search_runs key value status since_hours limit w).1 = Raise e0 ->
          is_Exception (exn_cls e0) = false)) /\
  (forall e0 w0,
      is_Exception (exn_cls e0) = false ->
      (list_workflows_try w = (Raise e0, w0) -> list_workflows w = (Raise e0, w0)) /\
      (forall workflow_name status since_hours limit,
          list_runs_try workflow_name status since_hours limit w = (Raise e0, w0) ->
          list_runs workflow_name status since_hours limit w = (Raise e0, w0)) /\
      (forall run_id,
          get_run_status_try run_id w = (Raise e0, w0) ->
          get_run_status run_id w = (Raise e0, w0)) /\
      (forall run_id,
          get_run_result_try run_id w = (Raise e0, w0) ->
          get_run_result run_id w = (Raise e0, w0)) /\
      (forall workflow_name,
          get_queue_metrics_try workflow_name w = (Raise e0, w0) ->
          get_queue_metrics workflow_name w = (Raise e0, w0)) /\
      (forall key value status since_hours limit,
          search_runs_try key value status since_hours limit w = (Raise e0, w0) ->
          search_runs key value status since_hours limit w = (Raise e0, w0)) /\
      (forall run_id h w1 s',
          get_hatchet_client w = (Ok h, w1) ->
          serve remote (RunsGet run_id) (remote_state w1) = (Raise e0, s') ->
          (get_run_status run_id w).1 = Raise e0) /\
      (forall run_id h w1 s',
          get_hatchet_client w = (Ok h, w1) ->
          serve remote (RunsGetResult run_id) (remote_state w1) = (Raise e0, s') ->
          (get_run_result run_id w).1 = Raise e0)).
Proof.
  intros He.
  repeat split; intros;
    try (unfold_operations;
         match goal with
         | H : _ = (Raise e, w') |- _ => now rewrite (try_except_catches _ _ _ _ _ He H)
         | H : (try_except _ _ _).1 = Raise _ |- _ =>
             refine (try_except_guard _ _ _ _ _ H); intros; eexists; reflexivity
         | He0 : is_Exception (exn_cls ?e0) = false,
           H : _ = (Raise ?e0, ?w0) |- try_except _ _ _ = (Raise ?e0, ?w0) =>
             exact (try_except_escapes _ _ _ _ _ He0 H)
         end).
  - eapply get_run_status_remote_raises; eassumption.
  - eapply get_run_status_flatten_raises; eassumption.
  - eapply get_run_result_remote_raises; eassumption.
  - eapply get_run_status_remote_escapes; eassumption.
  - eapply get_run_result_remote_escapes; eassumption.
Qed.

(** ** Workflow-name resolution *)

Lemma remote_call_inv (hatchet : Hatchet) (req : request) (w w' : world) (r : result pyval) :
  remote_call hatchet req w = (r, w') ->
  now w' = now w /\ client_cache w' = client_cache w /\
  ctor_calls w' = ctor_calls w /\ sent w' = (sent w ++ [req])%list.
Proof.
  unfold remote_call. destruct (serve remote req (remote_state w)) as [r0 s'].
  intros [= <- <-]. auto.
Qed.

Lemma name_matches_exact (workflow_name : string) (w : pyval) :
  name_matches workflow_name w = true <->
  exists n, py_getattr w "name" = Some n /\ str_content n = Some workflow_name.
Proof.
  unfold name_matches, py_eq_str.
  destruct (py_getattr w "name") as [n|]; [|split; [discriminate|now intros (n & [=] & _)]].
  destruct (str_content n) as [t|] eqn:Ht.
  - split.
    + intros ->%String.eqb_eq. eauto.
    + intros (n' & [= <-] & Hn). rewrite Ht in Hn. injection Hn as ->.
      apply String.eqb_refl.
  - split; [discriminate|]. intros (n' & [= <-] & Hn). congruence.
Qed.

Lemma rows_or_empty_list (resp : pyval) (l : list pyval) :
  py_getattr resp "rows" = Some (VList l) -> rows_or_empty resp = Ok l.
Proof.
  intros H. unfold rows_or_empty, getattr_exn. rewrite H. now destruct l.
Qed.

Lemma rows_or_empty_none (resp : pyval) :
  py_getattr resp "rows" = Some VNone -> rows_or_empty resp = Ok [].
Proof. intros H. unfold rows_or_empty, getattr_exn. now rewrite H. Qed.

Lemma workflow_id_of_attrs (x id : pyval) :
  workflow_id_of x = Ok id <->
  exists metadata,
    py_getattr x "metadata" = Some metadata /\ py_getattr metadata "id" = Some id.
Proof.
  unfold workflow_id_of, getattr_exn.
  destruct (py_getattr x "metadata") as [m|]; simpl.
  - destruct (py_getattr m "id") as [i|] eqn:Hi.
    + split; [intros [= <-]; eauto|]. intros (m' & [= <-] & H). congruence.
    + split; [discriminate|]. intros (m' & [= <-] & H). congruence.
  - split; [discriminate|]. now intros (m' & [=] & _).
Qed.

Lemma matching_workflow_ids_filter (workflow_name : string) (rows : list pyval) :
  matching_workflow_ids workflow_name rows
  = rmapM workflow_id_of (filter (fun w => name_matches workflow_name w = true) rows).
Proof.
  induction rows as [|w rows IH]; simpl; [reflexivity|].
  destruct (name_matches workflow_name w) eqn:Hm.
  - rewrite filter_cons_True by assumption. simpl. now rewrite IH.
  - rewrite filter_cons_False by congruence. exact IH.
Qed.

Lemma matching_workflow_ids_none (workflow_name : string) (rows : list pyval) :
  Forall (fun w => name_matches workflow_name w = false) rows ->
  matching_workflow_ids workflow_name rows = Ok [].
Proof.
  induction 1 as [|w rows Hw _ IH]; simpl; [reflexivity|]. now rewrite Hw.
Qed.

Lemma str_truthy_nonempty (s : string) : s <> "" -> str_truthy (Some s) = true.
Proof.
  intros H. unfold str_truthy. destruct (String.eqb_spec s ""); [contradiction|reflexivity].
Qed.

(** C4: the rows resolved are the rows of the workflow listing as it was
    fetched; a row is kept exactly when it has a [name] attribute that is
    a string with the very content of the requested name (equality of
    strings, so case-sensitive), and what is collected from a kept row is
    its [metadata.id]. The ids of the rows kept become the [workflow_ids]
    filter of the runs query. When no row is kept the filter is dropped:
    from the world [w2] the listing leaves, [list_runs] with the name is
    [list_runs] without it, [get_queue_metrics] with the name is
    [get_queue_metrics] without it up to the echoed name, and where the
    listing leaves the service as it was the two calls return the same
    from one and the same world. *)
Theorem workflow_name_resolution (name : string) (w w1 w2 : world) (h : Hatchet)
    (workflows : pyval) (rows : list pyval) :
  name <> "" ->
  get_hatchet_client w = (Ok h, w1) ->
  remote_call h WorkflowsList w1 = (Ok workflows, w2) ->
  rows_or_empty workflows = Ok rows ->
  (forall l, py_getattr workflows "rows" = Some (VList l) -> rows = l) /\
  (py_getattr workflows "rows" = Some VNone -> rows = []) /\
  (forall x,
      name_matches name x = true <->
      exists n, py_getattr x "name" = Some n /\ str_content n = Some name) /\
  (forall x id,
      workflow_id_of x = Ok id <->
      exists metadata,
        py_getattr x "metadata" = Some metadata /\ py_getattr metadata "id" = Some id) /\
  matching_workflow_ids name rows
  = rmapM workflow_id_of (filter (fun x => name_matches name x = true) rows) /\
  (forall status since_hours limit id ids,
      window_ok (now w) (default 24 since_hours) ->
      matching_workflow_ids name rows = Ok (id :: ids) ->
      sent (list_runs (Some name) status since_hours limit w).2
      = (sent w ++
         [WorkflowsList;
          RunsList (<["workflow_ids" := VList (id :: ids)]>
                      (add_status_filter status
                         {[ "since" :=
                              VDatetime (now w - default 24 since_hours * US_PER_HOUR);
                            "limit" := VInt (default 50 limit) ]}))])%list) /\
  (forall id ids,
      window_ok (now w) 24 ->
      matching_workflow_ids name rows = Ok (id :: ids) ->
      sent (get_queue_metrics (Some name) w).2
      = (sent w ++
         [WorkflowsList;
          RunsList (<["workflow_ids" := VList (id :: ids)]>
                      {[ "since" := VDatetime (now w - 24 * US_PER_HOUR);
                         "limit" := VInt 1000 ]})])%list) /\
  (Forall (fun x => name_matches name x = false) rows ->
   (forall status since_hours limit,
       window_ok (now w) (default 24 since_hours) ->
       list_runs (Some name) status since_hours limit w
       = list_runs None status since_hours limit w2 /\
       (remote_state w2 = remote_state w1 ->
        (list_runs (Some name) status since_hours limit w).1
        = (list_runs None status since_hours limit w).1)) /\
   (window_ok (now w) 24 ->
    get_queue_metrics (Some name) w
    = (let '(r, w') := get_queue_metrics None w2 in (echo_as name r, w')) /\
    (remote_state w2 = remote_state w1 ->
     (get_queue_metrics (Some name) w).1
     = echo_as name (get_queue_metrics None w).1))).
Proof.
  intros Hne Hc Hl Hrows.
  destruct (get_hatchet_client_ok _ _ _ Hc) as (Hcache & Hnow & Hsent).
  destruct (remote_call_inv _ _ _ _ _ Hl) as (Hnow2 & Hcache2 & Hctor2 & Hsent2).
  pose proof (str_truthy_nonempty _ Hne) as Htrue.
  split; [intros l Hattr; rewrite (rows_or_empty_list _ _ Hattr) in Hrows; congruence|].
  split; [intros Hattr; rewrite (rows_or_empty_none _ Hattr) in Hrows; congruence|].
  split; [intros x; apply name_matches_exact|].
  split; [intros x id; apply workflow_id_of_attrs|].
  split; [apply matching_workflow_ids_filter|].
  split; [|split].
  - intros status since_hours limit id ids [Hd Hr]%window_ok_since Hids.
    unfold list_runs, list_runs_try, try_except, add_workflow_filter, bind,
      datetime_now, lift.
    rewrite Hc, Htrue, Hnow, Hd, Hr, Hl, Hrows, Hids. unfold ret at 1.
    match goal with |- context [remote_call h ?q w2] =>
      destruct (remote_call h q w2) as [[runs|e] w3] eqn:Hq;
      destruct (remote_call_inv _ _ _ _ _ Hq) as (_ & _ & _ & Hsent3) end.
    + destruct (rows_or_empty runs) as [rs|e]; simpl;
        [destruct (rmapM _serialize_run rs) as [l|e]; simpl|];
        try destruct (is_Exception (exn_cls e)); simpl;
        now rewrite Hsent3, Hsent2, Hsent, <- app_assoc.
    + destruct (is_Exception (exn_cls e)); simpl;
        now rewrite Hsent3, Hsent2, Hsent, <- app_assoc.
  - intros id ids [Hd Hr]%window_ok_since Hids.
    unfold get_queue_metrics, get_queue_metrics_try, try_except, add_workflow_filter,
      or_all, bind,
      datetime_now, lift.
    rewrite Hc, Htrue, Hnow, Hd, Hr, Hl, Hrows, Hids. unfold ret at 1.
    match goal with |- context [remote_call h ?q w2] =>
      destruct (remote_call h q w2) as [[runs|e] w3] eqn:Hq;
      destruct (remote_call_inv _ _ _ _ _ Hq) as (_ & _ & _ & Hsent3) end.
    + destruct (rows_or_empty runs) as [rs|e]; simpl;
        [destruct (tally initial_counts rs) as [c|e]; simpl|];
        try destruct (is_Exception (exn_cls e)); simpl;
        now rewrite Hsent3, Hsent2, Hsent, <- app_assoc.
    + destruct (is_Exception (exn_cls e)); simpl;
        now rewrite Hsent3, Hsent2, Hsent, <- app_assoc.
  - intros Hnone. split.
    + intros status since_hours limit [Hd Hr]%window_ok_since.
      assert (Heq : list_runs (Some name) status since_hours limit w
                    = list_runs None status since_hours limit w2).
      { unfold list_runs, list_runs_try, try_except, add_workflow_filter, bind,
      datetime_now, lift.
        rewrite Hc, (get_hatchet_client_cached w2 h) by congruence.
        rewrite Htrue, Hnow2, Hnow, Hd, Hr, Hl, Hrows, (matching_workflow_ids_none _ _ Hnone).
        reflexivity. }
      split; [exact Heq|]. intros Hstate. rewrite Heq.
      unfold list_runs, list_runs_try, try_except, add_workflow_filter, bind,
      datetime_now, lift.
      rewrite Hc, (get_hatchet_client_cached w2 h) by congruence.
      rewrite Hnow2, Hnow, Hd, Hr. unfold ret, remote_call. rewrite Hstate.
      match goal with |- context [serve remote ?q ?st] =>
        destruct (serve remote q st) as [[runs|e] s3] end; simpl.
      * destruct (rows_or_empty runs) as [rs|e]; simpl;
          [destruct (rmapM _serialize_run rs) as [l|e]; simpl|];
          try destruct (is_Exception (exn_cls e)); reflexivity.
      * destruct (is_Exception (exn_cls e)); reflexivity.
    + intros [Hd Hr]%window_ok_since.
      assert (Heq : get_queue_metrics (Some name) w
                    = (let '(r, w') := get_queue_metrics None w2 in (echo_as name r, w'))).
      { unfold get_queue_metrics, get_queue_metrics_try, try_except, add_workflow_filter,
      or_all, bind,
      datetime_now, lift.
        rewrite Hc, (get_hatchet_client_cached w2 h) by congruence.
        rewrite Htrue, Hnow2, Hnow, Hd, Hr, Hl, Hrows, (matching_workflow_ids_none _ _ Hnone).
        unfold ret at 1 4.
        match goal with |- context [remote_call h ?q w2] =>
          destruct (remote_call h q w2) as [[runs|e] w3] end.
        - destruct (rows_or_empty runs) as [rs|e]; simpl;
            [destruct (tally initial_counts rs) as [c|e]; simpl|];
            try destruct (is_Exception (exn_cls e)); reflexivity.
        - destruct (is_Exception (exn_cls e)); reflexivity. }
      split; [exact Heq|]. intros Hstate. rewrite Heq.
      unfold get_queue_metrics, get_queue_metrics_try, try_except, add_workflow_filter,
      or_all, bind,
      datetime_now, lift.
      rewrite Hc, (get_hatchet_client_cached w2 h) by congruence.
      rewrite Hnow2, Hnow, Hd, Hr. unfold ret, remote_call. rewrite Hstate.
      match goal with |- context [serve remote ?q ?st] =>
        destruct (serve remote q st) as [[runs|e] s3] end; simpl.
      * destruct (rows_or_empty runs) as [rs|e]; simpl;
          [destruct (tally initial_counts rs) as [c|e]; simpl|];
          try destruct (is_Exception (exn_cls e)); reflexivity.
      * destruct (is_Exception (exn_cls e)); reflexivity.
Qed.

(** ** Queue metrics *)

Lemma tally_run_spec (counts counts' : gmap string Z) (run : pyval) :
  tally_run counts run = Ok counts' ->
  forall k,
    counts' !! k
    = (fun n => n + (if String.eqb k "total" then 1 else 0)
                 + (if filed_under k run then 1 else 0))%Z <$> counts !! k.
Proof.
  unfold tally_run, increment, filed_under.
  destruct (counts !! "total") as [t|] eqn:Ht; simpl; [|discriminate].
  destruct (py_getattr run "status") as [status|]; simpl.
  - destruct (status_name_of status) as [name|e]; simpl; [|discriminate].
    destruct (<["total" := (t + 1)%Z]> counts !! name) as [m|] eqn:Hm.
    + intros [= <-] k.
      destruct (String.eqb_spec name k) as [<-|Hnk].
      * rewrite lookup_insert_eq.
        destruct (String.eqb_spec name "total") as [->|Hnt].
        -- rewrite lookup_insert_eq in Hm. injection Hm as <-.
           rewrite Ht. simpl. f_equal; lia.
        -- rewrite lookup_insert_ne in Hm by congruence.
           rewrite Hm. simpl. f_equal; lia.
      * rewrite lookup_insert_ne by congruence.
        destruct (String.eqb_spec k "total") as [->|Hkt].
        -- rewrite lookup_insert_eq, Ht. simpl. f_equal; lia.
        -- rewrite lookup_insert_ne by congruence.
           destruct (counts !! k); simpl; f_equal; lia.
    + intros [= <-] k.
      destruct (String.eqb_spec k "total") as [->|Hkt].
      * rewrite lookup_insert_eq, Ht.
        destruct (String.eqb_spec name "total") as [->|_].
        -- now rewrite lookup_insert_eq in Hm.
        -- simpl. f_equal; lia.
      * rewrite lookup_insert_ne by congruence.
        destruct (String.eqb_spec name k) as [<-|_].
        -- rewrite lookup_insert_ne in Hm by congruence. now rewrite Hm.
        -- destruct (counts !! k); simpl; f_equal; lia.
  - intros [= <-] k.
    destruct (String.eqb_spec k "total") as [->|Hkt].
    + rewrite lookup_insert_eq, Ht. simpl. f_equal; lia.
    + rewrite lookup_insert_ne by congruence.
      destruct (counts !! k); simpl; f_equal; lia.
Qed.

Lemma count_filed_cons (k : string) (run : pyval) (rows : list pyval) :
  count_filed k (run :: rows)
  = ((if filed_under k run then 1 else 0) + count_filed k rows)%Z.
Proof.
  unfold count_filed. destruct (filed_under k run) eqn:Hf.
  - rewrite filter_cons_True by assumption. simpl length. lia.
  - rewrite filter_cons_False by congruence. lia.
Qed.

Lemma tally_spec (rows : list pyval) (counts counts' : gmap string Z) :
  tally counts rows = Ok counts' ->
  forall k,
    counts' !! k
    = (fun n => n + (if String.eqb k "total" then Z.of_nat (length rows) else 0)
                 + count_filed k rows)%Z <$> counts !! k.
Proof.
  revert counts. induction rows as [|run rows IH]; simpl; intros counts.
  - intros [= <-] k. destruct (counts !! k); simpl; f_equal;
      unfold count_filed; simpl; destruct (String.eqb k "total"); lia.
  - destruct (tally_run counts run) as [c1|e] eqn:Hrun; simpl; [|discriminate].
    intros Hrest k.
    rewrite (IH _ Hrest k), (tally_run_spec _ _ _ Hrun k), count_filed_cons.
    destruct (counts !! k); simpl; f_equal;
      destruct (String.eqb k "total"); lia.
Qed.



Lemma tally_initial_counts (rows : list pyval) (counts : gmap string Z) :
  tally initial_counts rows = Ok counts ->
  counts = {[ "queued" := count_filed "queued" rows;
              "running" := count_filed "running" rows;
              "completed" := count_filed "completed" rows;
              "failed" := count_filed "failed" rows;
              "cancelled" := count_filed "cancelled" rows;
              "total" := (Z.of_nat (length rows) + count_filed "total" rows)%Z ]}.
Proof.
  intros H. apply map_eq. intros k. rewrite (tally_spec _ _ _ H k).
  unfold initial_counts.
  destruct (decide (k = "queued")) as [->|?]; [reflexivity|].
  destruct (decide (k = "running")) as [->|?]; [reflexivity|].
  destruct (decide (k = "completed")) as [->|?]; [reflexivity|].
  destruct (decide (k = "failed")) as [->|?]; [reflexivity|].
  destruct (decide (k = "cancelled")) as [->|?]; [reflexivity|].
  destruct (decide (k = "total")) as [->|?]; [reflexivity|].
  rewrite !lookup_insert_ne, !lookup_singleton_ne by congruence. reflexivity.
Qed.



(* ================================================================= *)
(** * Further properties of the module *)

(** ** The status table *)

Lemma ascii_lower_idempotent (c : ascii) : ascii_lower (ascii_lower c) = ascii_lower c.
Proof. destruct c as [[] [] [] [] [] [] [] []]; reflexivity. Qed.

Lemma lower_idempotent (s : string) : lower (lower s) = lower s.
Proof.
  induction s as [|c s IH]; simpl; [reflexivity|].
  now rewrite ascii_lower_idempotent, IH.
Qed.

(** X1: the status argument is recognised exactly when its lower-cased
    form is one of the six keys of [STATUS_MAP], and lower-casing the
    argument beforehand never changes the translation. *)
Theorem translate_domain (s : string) :
  (is_Some (translate (Some s)) <->
   lower s ∈ ["queued"; "running"; "completed"; "succeeded"; "failed"; "cancelled"]) /\
  translate (Some (lower s)) = translate (Some s).
Proof.
  split; [|now rewrite !translate_lookup, lower_idempotent].
  rewrite translate_lookup. generalize (lower s) as k. intros k.
  rewrite !elem_of_cons, elem_of_nil. unfold STATUS_MAP. split.
  - intros Hk.
    destruct (decide (k = "queued")) as [->|?]; [auto|].
    destruct (decide (k = "running")) as [->|?]; [auto|].
    destruct (decide (k = "completed")) as [->|?]; [auto|].
    destruct (decide (k = "succeeded")) as [->|?]; [auto 10|].
    destruct (decide (k = "failed")) as [->|?]; [auto 10|].
    destruct (decide (k = "cancelled")) as [->|?]; [auto 10|].
    rewrite !lookup_insert_ne, lookup_singleton_ne in Hk by congruence.
    now destruct Hk.
  - intros [->|[->|[->|[->|[->|[->|[]]]]]]]; eexists; reflexivity.
Qed.

(** ** The flatteners *)

(** X2: whatever run object it is given, a record the run flattener
    returns has exactly the eight keys of a run record, so
    [additional_metadata] is always there and [error] never is; its three
    timestamps are strings or null, never raw objects. *)
Theorem serialize_run_shape (run : pyval) (d : gmap string pyval) :
  _serialize_run run = Ok d ->
  dom d = run_keys /\
  d !! "error" = None /\
  (forall k, k ∈ ["created_at"; "started_at"; "finished_at"] ->
             d !! k = Some VNone \/ exists s, d !! k = Some (VStr s)) /\
  (py_getattr run "additional_metadata" = None ->
   d !! "additional_metadata" = Some (VDict ∅)).
Proof.
  unfold _serialize_run.
  destruct (match py_getattr run "status" with
            | Some st => getattr_exn st "value"
            | None => Ok VNone
            end) as [status|e]; simpl; [|discriminate].
  intros [= <-]. split; [|split; [|split]].
  - unfold run_keys. rewrite !dom_insert_L, dom_singleton_L. set_solver.
  - reflexivity.
  - intros k. rewrite !elem_of_cons, elem_of_nil.
    intros [->|[->|[->|[]]]]; simplify_map_eq;
      match goal with |- context [py_getattr run ?a] =>
        destruct (py_getattr run a); eauto end.
  - intros ->. now simplify_map_eq.
Qed.

(** X3: what the run flattener needs of [status]. It returns a record only
    for a run without a [status] attribute, whose record has status null,
    or for a run whose status has a [value] attribute, which becomes the
    status of the record. For a run that has its nested [metadata.id] and
    a status without [value] (a plain string, a number, [None]) it raises
    the [AttributeError] of that read. *)
Theorem serialize_run_status_read (run : pyval) :
  (forall d,
      _serialize_run run = Ok d ->
      (py_getattr run "status" = None /\ d !! "status" = Some VNone) \/
      (exists status v,
          py_getattr run "status" = Some status /\
          py_getattr status "value" = Some v /\
          d !! "status" = Some v)) /\
  (forall id status,
      nested_id run = Some id ->
      py_getattr run "status" = Some status ->
      py_getattr status "value" = None ->
      _serialize_run run = Raise (no_attribute status "value")).
Proof.
  split.
  - intros d. unfold _serialize_run, getattr_exn.
    destruct (py_getattr run "status") as [status|]; simpl.
    + destruct (py_getattr status "value") as [v|] eqn:Hv; simpl; [|discriminate].
      intros [= <-]. right. exists status, v. now simplify_map_eq.
    + intros [= <-]. left. now simplify_map_eq.
  - intros id status _ Hs Hv. unfold _serialize_run, getattr_exn. now rewrite Hs, Hv.
Qed.

(** X4: both flatteners take [id] from the nested [metadata.id] whenever
    that path exists, as it is and without converting it, and fall back to
    the string form of the whole object in every other case: no
    [metadata], or a [metadata] without [id]. *)
Theorem flattened_id_source (x : pyval) :
  _serialize_workflow x !! "id" = Some (default (VStr (py_str x)) (nested_id x)) /\
  (forall d, _serialize_run x = Ok d ->
             d !! "id" = Some (default (VStr (py_str x)) (nested_id x))).
Proof.
  split.
  - unfold _serialize_workflow, nested_id.
    destruct (py_getattr x "metadata") as [m|]; simplify_map_eq;
      [destruct (py_getattr m "id")|]; reflexivity.
  - intros d. unfold _serialize_run, nested_id.
    destruct (match py_getattr x "status" with
              | Some st => getattr_exn st "value"
              | None => Ok VNone
              end) as [status|e]; simpl; [|discriminate].
    intros [= <-].
    destruct (py_getattr x "metadata") as [m|]; simplify_map_eq;
      [destruct (py_getattr m "id")|]; reflexivity.
Qed.

(** ** What the operations return *)

Lemma serialize_run_no_error (run : pyval) (d : gmap string pyval) :
  _serialize_run run = Ok d -> d !! "error" = None.
Proof.
  unfold _serialize_run.
  destruct (match py_getattr run "status" with
            | Some st => getattr_exn st "value"
            | None => Ok VNone
            end) as [status|e]; simpl; [|discriminate].
  now intros [= <-].
Qed.

Lemma serialize_run_raise_class (run : pyval) (e : pyexn) :
  _serialize_run run = Raise e -> is_Exception (exn_cls e) = true.
Proof.
  unfold _serialize_run, getattr_exn.
  destruct (py_getattr run "status") as [status|]; simpl; [|discriminate].
  destruct (py_getattr status "value"); simpl; [discriminate|].
  now intros [= <-].
Qed.

Lemma rmapM_Forall {A B} (f : A -> result B) (P : B -> Prop) (l : list A) (l' : list B) :
  (forall a b, f a = Ok b -> P b) -> rmapM f l = Ok l' -> Forall P l'.
Proof.
  intros Hf. revert l'. induction l as [|a l IH]; simpl; intros l'.
  - intros [= <-]. constructor.
  - destruct (f a) as [b|e] eqn:Hb; simpl; [|discriminate].
    destruct (rmapM f l) as [bs|e]; simpl; [|discriminate].
    intros [= <-]. constructor; eauto.
Qed.

Lemma sends_any {A} t (P : request -> Prop) (Q : A -> Prop) (m : M A) :
  sends t P Q m -> sends t (fun _ => True) Q m.
Proof.
  intros Hm w Hw. destruct (Hm w Hw) as (new & Hs & _ & Hn & Ha).
  exists new. repeat split; auto. now apply Forall_true.
Qed.

Lemma list_runs_try_records t (workflow_name status : option string)
    (since_hours limit : option Z) :
  sends t (fun _ => True) (Forall (fun d => d !! "error" = None))
    (list_runs_try workflow_name status since_hours limit).
Proof.
  unfold list_runs_try.
  eapply sends_bind; [apply sends_client | intros hatchet _].
  eapply sends_bind; [apply sends_now | intros ? _].
  eapply sends_bind; [apply sends_lift | intros ? _].
  eapply sends_bind; [apply sends_lift | intros ? _].
  eapply sends_bind; [eapply sends_any, (sends_workflow_filter _ ∅) | intros p _].
  eapply sends_bind; [now apply sends_call | intros runs _].
  eapply sends_bind; [apply sends_lift | intros rows _].
  eapply sends_post; [apply sends_lift|].
  intros l Hl. eapply rmapM_Forall; [|exact Hl]. apply serialize_run_no_error.
Qed.

Lemma search_runs_try_records t (key value : string) (status : option string)
    (since_hours limit : option Z) :
  sends t (fun _ => True) (Forall (fun d => d !! "error" = None))
    (search_runs_try key value status since_hours limit).
Proof.
  unfold search_runs_try.
  eapply sends_bind; [apply sends_client | intros hatchet _].
  eapply sends_bind; [apply sends_now | intros ? _].
  eapply sends_bind; [apply sends_lift | intros ? _].
  eapply sends_bind; [apply sends_lift | intros ? _].
  eapply sends_bind; [now apply sends_call | intros runs _].
  eapply sends_bind; [apply sends_lift | intros rows _].
  eapply sends_post; [apply sends_lift|].
  intros l Hl. eapply rmapM_Forall; [|exact Hl]. apply serialize_run_no_error.
Qed.

Lemma list_workflows_try_records t :
  sends t (fun _ => True) (Forall (fun d => d !! "error" = None)) list_workflows_try.
Proof.
  unfold list_workflows_try.
  eapply sends_bind; [apply sends_client | intros hatchet _].
  eapply sends_bind; [now apply sends_call | intros workflows _].
  eapply sends_bind; [apply sends_lift | intros rows _].
  eapply sends_post; [apply sends_ret|].
  intros l ->. apply Forall_fmap, Forall_forall. intros x _. reflexivity.
Qed.

Lemma get_queue_metrics_try_record t (workflow_name : option string) :
  sends t (fun _ => True) (fun d => d !! "error" = None)
    (get_queue_metrics_try workflow_name).
Proof.
  unfold get_queue_metrics_try.
  eapply sends_bind; [apply sends_client | intros hatchet _].
  eapply sends_bind; [apply sends_now | intros ? _].
  eapply sends_bind; [apply sends_lift | intros ? _].
  eapply sends_bind; [apply sends_lift | intros ? _].
  eapply sends_bind; [eapply sends_any, (sends_workflow_filter _ ∅) | intros p _].
  eapply sends_bind; [now apply sends_call | intros runs _].
  eapply sends_bind; [apply sends_lift | intros rows _].
  eapply sends_bind; [apply sends_lift | intros counts _].
  eapply sends_post; [apply sends_ret|]. now intros d ->.
Qed.

Lemma get_run_status_try_record t (run_id : string) :
  sends t (fun _ => True) (fun d => d !! "error" = None) (get_run_status_try run_id).
Proof.
  unfold get_run_status_try.
  eapply sends_bind; [apply sends_client | intros hatchet _].
  eapply sends_bind; [now apply sends_call | intros status _].
  eapply sends_post; [apply sends_lift|]. intros d. apply serialize_run_no_error.
Qed.

Lemma get_run_result_try_record t (run_id : string) :
  sends t (fun _ => True) (fun d => d !! "error" = None) (get_run_result_try run_id).
Proof.
  unfold get_run_result_try.
  eapply sends_bind; [apply sends_client | intros hatchet _].
  eapply sends_bind; [now apply sends_call | intros result _].
  eapply sends_post; [apply sends_ret|]. now intros d ->.
Qed.

(** A guarded operation answers with an error value exactly when its
    [try] block raised. *)
Lemma guarded_dict_error {A} (body : M A) (on_error : pyexn -> A)
    (has_error : A -> Prop) (w : world) (a : A) :
  (forall e, has_error (on_error e)) ->
  (forall a', (body w).1 = Ok a' -> ~ has_error a') ->
  (try_except body (fun e => ret (on_error e)) w).1 = Ok a ->
  (has_error a <-> is_raise (body w).1 = true).
Proof.
  intros Herr Hok. unfold try_except.
  destruct (body w) as [[a'|e] w1]; simpl in *.
  - intros [= <-]. split; [intros H; now destruct (Hok a' eq_refl)|discriminate].
  - destruct (is_Exception (exn_cls e)); simpl; [|discriminate].
    intros [= <-]. split; auto.
Qed.

(** X9: the [error] key tells failure from success. Whenever an operation
    returns, its value carries an [error] key (for the list-returning
    operations: some element does) exactly when its [try] block raised;
    no record of a successful answer has that key. *)
Theorem error_key_marks_failure (w : world) :
  (forall l, (list_workflows w).1 = Ok l ->
     ((exists d, d ∈ l /\ is_Some (d !! "error")) <-> is_raise (list_workflows_try w).1 = true)) /\
  (forall workflow_name status since_hours limit l,
     (list_runs workflow_name status since_hours limit w).1 = Ok l ->
     ((exists d, d ∈ l /\ is_Some (d !! "error")) <->
      is_raise (list_runs_try workflow_name status since_hours limit w).1 = true)) /\
  (forall run_id d, (get_run_status run_id w).1 = Ok d ->
     (is_Some (d !! "error") <-> is_raise (get_run_status_try run_id w).1 = true)) /\
  (forall run_id d, (get_run_result run_id w).1 = Ok d ->
     (is_Some (d !! "error") <-> is_raise (get_run_result_try run_id w).1 = true)) /\
  (forall workflow_name d, (get_queue_metrics workflow_name w).1 = Ok d ->
     (is_Some (d !! "error") <-> is_raise (get_queue_metrics_try workflow_name w).1 = true)) /\
  (forall key value status since_hours limit l,
     (search_runs key value status since_hours limit w).1 = Ok l ->
     ((exists d, d ∈ l /\ is_Some (d !! "error")) <->
      is_raise (search_runs_try key value status since_hours limit w).1 = true)).
Proof.
  assert (Hlist : forall l : list (gmap string pyval),
    Forall (fun d => d !! "error" = None) l ->
    ~ exists d, d ∈ l /\ is_Some (d !! "error")).
  { intros l Hl (d & Hd & [x Hx]). rewrite Forall_forall in Hl.
    rewrite (Hl d Hd) in Hx. discriminate. }
  assert (Hone : forall e, exists d, d ∈ [error_dict e] /\ is_Some (d !! "error")).
  { intros e. exists (error_dict e). split; [apply list_elem_of_here|]. now eexists. }
  repeat apply conj; intros.
  - refine (guarded_dict_error list_workflows_try (fun e => [error_dict e])
              (fun l => exists d, d ∈ l /\ is_Some (d !! "error")) w l Hone _ H).
    intros l' Hl'. apply Hlist.
    destruct (list_workflows_try_records (now w) w eq_refl) as (_ & _ & _ & _ & HQ). auto.
  - refine (guarded_dict_error (list_runs_try _ _ _ _) (fun e => [error_dict e])
              (fun l => exists d, d ∈ l /\ is_Some (d !! "error")) w l Hone _ H).
    intros l' Hl'. apply Hlist.
    destruct (list_runs_try_records (now w) workflow_name status since_hours limit w eq_refl)
      as (_ & _ & _ & _ & HQ). auto.
  - refine (guarded_dict_error (get_run_status_try run_id)
              (fun e => {[ "error" := VStr (exn_str e); "run_id" := VStr run_id ]})
              (fun d => is_Some (d !! "error")) w d _ _ H).
    + intros e. now eexists.
    + intros d' Hd' [x Hx].
      destruct (get_run_status_try_record (now w) run_id w eq_refl) as (_ & _ & _ & _ & HQ).
      rewrite (HQ d' Hd') in Hx. discriminate.
  - refine (guarded_dict_error (get_run_result_try run_id)
              (fun e => {[ "error" := VStr (exn_str e); "run_id" := VStr run_id ]})
              (fun d => is_Some (d !! "error")) w d _ _ H).
    + intros e. now eexists.
    + intros d' Hd' [x Hx].
      destruct (get_run_result_try_record (now w) run_id w eq_refl) as (_ & _ & _ & _ & HQ).
      rewrite (HQ d' Hd') in Hx. discriminate.
  - refine (guarded_dict_error (get_queue_metrics_try workflow_name) error_dict
              (fun d => is_Some (d !! "error")) w d _ _ H).
    + intros e. now eexists.
    + intros d' Hd' [x Hx].
      destruct (get_queue_metrics_try_record (now w) workflow_name w eq_refl)
        as (_ & _ & _ & _ & HQ).
      rewrite (HQ d' Hd') in Hx. discriminate.
  - refine (guarded_dict_error (search_runs_try _ _ _ _ _) (fun e => [error_dict e])
              (fun l => exists d, d ∈ l /\ is_Some (d !! "error")) w l Hone _ H).
    intros l' Hl'. apply Hlist.
    destruct (search_runs_try_records (now w) key value status since_hours limit w eq_refl)
      as (_ & _ & _ & _ & HQ). auto.
Qed.

(** X6: [list_workflows] sends the one workflow listing and returns the
    flattening of its rows, one record per row and in the order of the
    rows; a listing whose [rows] is [None] counts as empty and gives the
    empty list, while a listing without a [rows] attribute gives the error
    value of the failed read. *)
Theorem list_workflows_rows (w w1 w2 : world) (h : Hatchet) (listing : pyval) :
  get_hatchet_client w = (Ok h, w1) ->
  remote_call h WorkflowsList w1 = (Ok listing, w2) ->
  sent w2 = (sent w ++ [WorkflowsList])%list /\
  (forall rows, rows_or_empty listing = Ok rows ->
     list_workflows w = (Ok (_serialize_workflow <$> rows), w2)) /\
  (py_getattr listing "rows" = Some VNone -> list_workflows w = (Ok [], w2)) /\
  (py_getattr listing "rows" = None ->
   list_workflows w = (Ok [error_dict (no_attribute listing "rows")], w2)).
Proof.
  intros Hc Hl.
  destruct (get_hatchet_client_ok _ _ _ Hc) as (_ & _ & Hsent).
  destruct (remote_call_inv _ _ _ _ _ Hl) as (_ & _ & _ & Hsent2).
  assert (Hrun : forall r, rows_or_empty listing = r ->
    list_workflows w
    = match r with
      | Ok rows => (Ok (_serialize_workflow <$> rows), w2)
      | Raise e => if is_Exception (exn_cls e) then (Ok [error_dict e], w2)
                   else (Raise e, w2)
      end).
  { intros r Hr. unfold list_workflows, list_workflows_try, try_except, bind, lift.
    rewrite Hc, Hl, Hr. now destruct r. }
  split; [congruence|]. split; [|split].
  - intros rows Hrows. exact (Hrun _ Hrows).
  - intros Hnone. apply (Hrun (Ok [])).
    unfold rows_or_empty, getattr_exn. now rewrite Hnone.
  - intros Hmissing. apply (Hrun (Raise (no_attribute listing "rows"))).
    unfold rows_or_empty, getattr_exn. now rewrite Hmissing.
Qed.

(** X7: [get_run_result] sends the one result request and hands the
    payload on untouched, whatever it is, next to the [run_id] it was
    asked for. *)
Theorem get_run_result_passes_through (run_id : string) (w w1 w2 : world)
    (h : Hatchet) (payload : pyval) :
  get_hatchet_client w = (Ok h, w1) ->
  remote_call h (RunsGetResult run_id) w1 = (Ok payload, w2) ->
  get_run_result run_id w
  = (Ok {[ "run_id" := VStr run_id; "result" := payload ]}, w2) /\
  sent w2 = (sent w ++ [RunsGetResult run_id])%list.
Proof.
  intros Hc Hq.
  destruct (get_hatchet_client_ok _ _ _ Hc) as (_ & _ & Hsent).
  destruct (remote_call_inv _ _ _ _ _ Hq) as (_ & _ & _ & Hsent2).
  split; [|congruence].
  unfold get_run_result, get_run_result_try, try_except, bind. now rewrite Hc, Hq.
Qed.

(** X8: [get_run_status] sends the one fetch of the run and returns
    exactly what the run flattener makes of the answer: its record when it
    flattens, and otherwise the error value of the flattener's exception
    with the [run_id] echoed. *)
Theorem get_run_status_flattens (run_id : string) (w w1 w2 : world)
    (h : Hatchet) (run : pyval) :
  get_hatchet_client w = (Ok h, w1) ->
  remote_call h (RunsGet run_id) w1 = (Ok run, w2) ->
  sent w2 = (sent w ++ [RunsGet run_id])%list /\
  get_run_status run_id w
  = (match _serialize_run run with
     | Ok d => Ok d
     | Raise e => Ok {[ "error" := VStr (exn_str e); "run_id" := VStr run_id ]}
     end, w2).
Proof.
  intros Hc Hq.
  destruct (get_hatchet_client_ok _ _ _ Hc) as (_ & _ & Hsent).
  destruct (remote_call_inv _ _ _ _ _ Hq) as (_ & _ & _ & Hsent2).
  split; [congruence|].
  unfold get_run_status, get_run_status_try, try_except, bind, lift. rewrite Hc, Hq.
  destruct (_serialize_run run) as [d|e] eqn:Hd; [reflexivity|].
  now rewrite (serialize_run_raise_class _ _ Hd).
Qed.

(** ** A client that cannot be built *)

(** X10: a failed construction is not cached. When the accessor raises,
    the cache was empty and stays empty, the constructor has run once and
    nothing was sent; the next call runs the constructor again, and if it
    succeeds that call returns the new handle and caches it. *)
Theorem failed_construction_not_cached (w w1 : world) (e : pyexn) :
  get_hatchet_client w = (Raise e, w1) ->
  client_cache w = None /\
  client_cache w1 = None /\
  ctor_calls w1 = S (ctor_calls w) /\
  sent w1 = sent w /\
  now w1 = now w /\
  (forall s2,
      hatchet_init remote (remote_state w1) = (Ok (), s2) ->
      get_hatchet_client w1
      = (Ok (Handle (ctor_calls w1)),
         World (now w) (Some (Handle (ctor_calls w1))) (S (ctor_calls w1)) s2 (sent w))).
Proof.
  unfold get_hatchet_client, construct_hatchet.
  destruct (client_cache w) as [h|] eqn:Hcache; [discriminate|].
  destruct (hatchet_init remote (remote_state w)) as [[[]|e'] s'] eqn:Hinit; simpl;
    [discriminate|].
  intros [= <- <-]. simpl.
  repeat split. intros s2 ->. reflexivity.
Qed.

(** X11: when the client cannot be built (the cache is empty and the
    constructor raises an [Exception]), every operation answers with its
    error value carrying the constructor's message, sends nothing to the
    service, and leaves the cache empty for the next call to try again. *)
Theorem operations_report_failed_construction (w : world) (e : pyexn) (s' : R) :
  client_cache w = None ->
  hatchet_init remote (remote_state w) = (Raise e, s') ->
  is_Exception (exn_cls e) = true ->
  let w' := World (now w) None (S (ctor_calls w)) s' (sent w) in
  list_workflows w = (Ok [error_dict e], w') /\
  (forall workflow_name status since_hours limit,
      list_runs workflow_name status since_hours limit w = (Ok [error_dict e], w')) /\
  (forall run_id,
      get_run_status run_id w
      = (Ok {[ "error" := VStr (exn_str e); "run_id" := VStr run_id ]}, w')) /\
  (forall run_id,
      get_run_result run_id w
      = (Ok {[ "error" := VStr (exn_str e); "run_id" := VStr run_id ]}, w')) /\
  (forall workflow_name,
      get_queue_metrics workflow_name w = (Ok {[ "error" := VStr (exn_str e) ]}, w')) /\
  (forall key value status since_hours limit,
      search_runs key value status since_hours limit w = (Ok [error_dict e], w')).
Proof.
  intros Hcache Hinit He w'.
  assert (Hc : get_hatchet_client w = (Raise e, w')).
  { unfold get_hatchet_client, construct_hatchet. now rewrite Hcache, Hinit. }
  repeat apply conj; intros; unfold_operations;
    try unfold list_workflows_try; try unfold list_runs_try;
    try unfold get_run_status_try; try unfold get_run_result_try;
    try unfold get_queue_metrics_try; try unfold search_runs_try;
    unfold try_except, bind; now rewrite Hc, He.
Qed.

(** ** Windows that are no [datetime] *)

Lemma window_not_ok (t h : Z) :
  ~ window_ok t h ->
  exists e,
    exn_cls e = OverflowError /\
    (timedelta_hours h = Raise e \/
     timedelta_hours h = Ok (h * US_PER_HOUR)%Z /\
     datetime_sub t (h * US_PER_HOUR) = Raise e).
Proof.
  intros Hw. unfold timedelta_hours, datetime_sub.
  case_bool_decide as Hd.
  - case_bool_decide as Hr.
    + destruct Hw. now split.
    + eexists. split; [|right; split; reflexivity]. reflexivity.
  - case_bool_decide; eexists; (split; [|left; reflexivity]); reflexivity.
Qed.

(** X12: the time window is computed before anything is sent, and it must
    be a [datetime]: [since_hours] hours before now is representable
    exactly when both the [timedelta] and the subtraction succeed. When it
    is not, [list_runs] and [search_runs] return the [OverflowError] as
    their error value and have sent no request at all, not even the
    workflow listing. *)
Theorem window_out_of_range (workflow_name status : option string)
    (key value : string) (since_hours limit : option Z) (w w1 : world) (h : Hatchet) :
  get_hatchet_client w = (Ok h, w1) ->
  ~ window_ok (now w) (default 24 since_hours) ->
  (forall t hours,
      window_ok t hours <->
      exists since, rbind (timedelta_hours hours) (datetime_sub t) = Ok since) /\
  sent w1 = sent w /\
  exists e,
    exn_cls e = OverflowError /\
    list_runs workflow_name status since_hours limit w = (Ok [error_dict e], w1) /\
    search_runs key value status since_hours limit w = (Ok [error_dict e], w1).
Proof.
  intros Hc Hw.
  destruct (get_hatchet_client_ok _ _ _ Hc) as (_ & Hnow & Hsent).
  split; [|split; [exact Hsent|]].
  - intros t hours. split.
    + intros [Hd Hr]%window_ok_since. rewrite Hd. simpl. eauto.
    + intros [since Hs]. unfold timedelta_hours, datetime_sub in Hs.
      case_bool_decide as Hd; [|case_bool_decide; discriminate]. simpl in Hs.
      case_bool_decide as Hr; [|discriminate]. now split.
  - destruct (window_not_ok _ _ Hw) as (e & He & [Hd|[Hd Hr]]); exists e;
      (split; [exact He|]);
      unfold list_runs, list_runs_try, search_runs, search_runs_try,
        try_except, bind, datetime_now, lift;
      rewrite Hc, Hnow, Hd, ?Hr, He; split; reflexivity.
Qed.

(** ** More on the tally *)

Lemma count_filed_nonneg (k : string) (rows : list pyval) : (0 <= count_filed k rows)%Z.
Proof. unfold count_filed. lia. Qed.

Lemma filed_under_once (run : pyval) :
  ((if filed_under "queued" run then 1 else 0)
   + (if filed_under "running" run then 1 else 0)
   + (if filed_under "completed" run then 1 else 0)
   + (if filed_under "failed" run then 1 else 0)
   + (if filed_under "cancelled" run then 1 else 0) <= 1)%Z.
Proof.
  unfold filed_under.
  destruct (py_getattr run "status") as [status|]; [|lia].
  destruct (status_name_of status) as [n|e]; [|lia].
  destruct (String.eqb_spec n "queued") as [->|?]; [simpl; lia|].
  destruct (String.eqb_spec n "running") as [->|?]; [simpl; lia|].
  destruct (String.eqb_spec n "completed") as [->|?]; [simpl; lia|].
  destruct (String.eqb_spec n "failed") as [->|?]; [simpl; lia|].
  destruct (String.eqb n "cancelled"); lia.
Qed.

Lemma count_filed_five (rows : list pyval) :
  (count_filed "queued" rows + count_filed "running" rows + count_filed "completed" rows
   + count_filed "failed" rows + count_filed "cancelled" rows
   <= Z.of_nat (length rows))%Z.
Proof.
  induction rows as [|run rows IH].
  - unfold count_filed. simpl. lia.
  - rewrite !count_filed_cons. pose proof (filed_under_once run). simpl length. lia.
Qed.

(** X13: the counts [get_queue_metrics] computes keep the six keys they
    start with, none is negative, the five per-status counters together
    never exceed the number of runs counted, and [total] is never below
    it. *)
Theorem tally_bounds (rows : list pyval) (counts : gmap string Z) :
  tally initial_counts rows = Ok counts ->
  dom counts = dom initial_counts /\
  (forall k n, counts !! k = Some n -> (0 <= n)%Z) /\
  (counter counts "queued" + counter counts "running" + counter counts "completed"
   + counter counts "failed" + counter counts "cancelled"
   <= Z.of_nat (length rows) <= counter counts "total")%Z.
Proof.
  intros ->%tally_initial_counts. split; [|split].
  - unfold initial_counts. rewrite !dom_insert_L, !dom_singleton_L. reflexivity.
  - intros k n Hn.
    destruct (decide (k = "queued")) as [->|?];
      [simplify_map_eq; apply count_filed_nonneg|].
    destruct (decide (k = "running")) as [->|?];
      [simplify_map_eq; apply count_filed_nonneg|].
    destruct (decide (k = "completed")) as [->|?];
      [simplify_map_eq; apply count_filed_nonneg|].
    destruct (decide (k = "failed")) as [->|?];
      [simplify_map_eq; apply count_filed_nonneg|].
    destruct (decide (k = "cancelled")) as [->|?];
      [simplify_map_eq; apply count_filed_nonneg|].
    destruct (decide (k = "total")) as [->|?]; simplify_map_eq.
    pose proof (count_filed_nonneg "total" rows). lia.
  - unfold counter. simplify_map_eq. simpl.
    pose proof (count_filed_five rows). pose proof (count_filed_nonneg "total" rows). lia.
Qed.




(** ** Lists of runs *)

Lemma rmapM_first_failure {A B} (f : A -> result B) (pre post : list A) (bad : A) (e : pyexn) :
  Forall (fun a => is_raise (f a) = false) pre ->
  f bad = Raise e ->
  rmapM f (pre ++ bad :: post) = Raise e.
Proof.
  intros Hpre Hbad. induction Hpre as [|a pre Ha _ IH]; simpl.
  - now rewrite Hbad.
  - destruct (f a); [|discriminate]. simpl. now rewrite IH.
Qed.

(** X14: [list_runs] is all or nothing. If one run of the answer cannot
    be flattened, the operation returns the single error value of the
    first such run, and none of the records of the runs before or after
    it. *)
Theorem list_runs_all_or_nothing (workflow_name status : option string)
    (since_hours limit : option Z) (w w1 w2 w3 : world) (h : Hatchet)
    (params : gmap string pyval) (answer : pyval) (pre post : list pyval)
    (bad : pyval) (e : pyexn) :
  get_hatchet_client w = (Ok h, w1) ->
  window_ok (now w) (default 24 since_hours) ->
  add_workflow_filter h workflow_name
    (add_status_filter status
       {[ "since" := VDatetime (now w - default 24 since_hours * US_PER_HOUR);
          "limit" := VInt (default 50 limit) ]}) w1
  = (Ok params, w2) ->
  remote_call h (RunsList params) w2 = (Ok answer, w3) ->
  rows_or_empty answer = Ok (pre ++ bad :: post)%list ->
  Forall (fun run => is_raise (_serialize_run run) = false) pre ->
  _serialize_run bad = Raise e ->
  list_runs workflow_name status since_hours limit w = (Ok [error_dict e], w3).
Proof.
  intros Hc [Hd Hr]%window_ok_since Hf Hq Hrows Hpre Hbad.
  destruct (get_hatchet_client_ok _ _ _ Hc) as (_ & Hnow & _).
  unfold list_runs, list_runs_try, try_except, bind, datetime_now, lift.
  rewrite Hc, Hnow, Hd, Hr, Hf, Hq, Hrows, (rmapM_first_failure _ _ _ _ _ Hpre Hbad).
  now rewrite (serialize_run_raise_class _ _ Hbad).
Qed.

(** ** How the operations relate *)

(** X16: [get_queue_metrics(workflow_name)] talks to the service exactly
    as [list_runs(workflow_name, None, 24, 1000)] does: from the same
    world the two leave the same world behind, so they send the same
    requests in the same order and count or flatten the same answer. *)
Theorem metrics_requests_as_list_runs (workflow_name : option string) (w : world) :
  (get_queue_metrics workflow_name w).2
  = (list_runs workflow_name None (Some 24) (Some 1000) w).2.
Proof.
  unfold get_queue_metrics, get_queue_metrics_try, list_runs, list_runs_try,
    try_except, bind, datetime_now, lift.
  destruct (get_hatchet_client w) as [[h|e] w1];
    [|destruct (is_Exception (exn_cls e)); reflexivity].
  change (default 24 (Some 24)) with 24%Z. change (default 50 (Some 1000)) with 1000%Z.
  destruct (timedelta_hours 24) as [delta|e];
    [|destruct (is_Exception (exn_cls e)); reflexivity].
  destruct (datetime_sub (now w1) delta) as [since|e];
    [|destruct (is_Exception (exn_cls e)); reflexivity].
  change (add_status_filter None ?p) with p.
  match goal with |- context [add_workflow_filter h workflow_name ?p w1] =>
    destruct (add_workflow_filter h workflow_name p w1) as [[p'|e] w2] end;
    [|destruct (is_Exception (exn_cls e)); reflexivity].
  destruct (remote_call h (RunsList p') w2) as [[answer|e] w3];
    [|destruct (is_Exception (exn_cls e)); reflexivity].
  destruct (rows_or_empty answer) as [rows|e];
    [|destruct (is_Exception (exn_cls e)); reflexivity].
  destruct (tally initial_counts rows) as [c|e]; simpl;
    [|destruct (is_Exception (exn_cls e))];
    (destruct (rmapM _serialize_run rows) as [l|e']; simpl;
       [|destruct (is_Exception (exn_cls e'))]); reflexivity.
Qed.

Lemma search_runs_requests (key value : string) (status : option string)
    (since_hours limit : option Z) (w : world) :
  exists new,
    sent (list_runs None status since_hours limit w).2 = (sent w ++ new)%list /\
    sent (search_runs key value status since_hours limit w).2
    = (sent w ++ (with_metadata key value <$> new))%list.
Proof.
  assert (Hp : forall since : Z,
    add_status_filter status
      {[ "since" := VDatetime since;
         "limit" := VInt (default 50 limit);
         "additional_metadata" := VDict {[ key := VStr value ]} ]}
    = <["additional_metadata" := VDict {[ key := VStr value ]}]>
        (add_status_filter status
           {[ "since" := VDatetime since; "limit" := VInt (default 50 limit) ]})).
  { intros since. unfold add_status_filter. destruct (translate status); reflexivity. }
  unfold list_runs, list_runs_try, search_runs, search_runs_try, add_workflow_filter,
    try_except, bind, datetime_now, lift.
  destruct (get_hatchet_client w) as [[h|e] w1] eqn:Hc.
  2:{ exists []. unfold get_hatchet_client, construct_hatchet in Hc.
      destruct (client_cache w); [discriminate|].
      destruct (hatchet_init remote (remote_state w)) as [[[]|e'] s']; simpl in Hc;
        [discriminate|]. injection Hc as <- <-.
      destruct (is_Exception (exn_cls e')); simpl; now rewrite app_nil_r. }
  destruct (get_hatchet_client_ok _ _ _ Hc) as (_ & _ & Hsent).
  destruct (timedelta_hours (default 24 since_hours)) as [delta|e].
  2:{ exists []. destruct (is_Exception (exn_cls e)); simpl; now rewrite app_nil_r. }
  destruct (datetime_sub (now w1) delta) as [since|e].
  2:{ exists []. destruct (is_Exception (exn_cls e)); simpl; now rewrite app_nil_r. }
  rewrite Hp. unfold ret at 1.
  match goal with |- context [remote_call h (RunsList ?p) w1] =>
    exists [RunsList p];
    destruct (remote_call h (RunsList p) w1) as [[a1|e1] v1] eqn:H1;
    destruct (remote_call_inv _ _ _ _ _ H1) as (_ & _ & _ & Hs1);
    destruct (remote_call h
                (RunsList (<["additional_metadata" := VDict {[ key := VStr value ]}]> p)) w1)
      as [[a2|e2] v2] eqn:H2;
    destruct (remote_call_inv _ _ _ _ _ H2) as (_ & _ & _ & Hs2)
  end;
  repeat match goal with
         | |- context [rows_or_empty ?a] => destruct (rows_or_empty a)
         | |- context [rmapM _serialize_run ?l] => destruct (rmapM _serialize_run l)
         | |- context [is_Exception (exn_cls ?e)] => destruct (is_Exception (exn_cls e))
         end; simpl; rewrite Hs1, Hs2, Hsent; auto.
Qed.

(** X17: [search_runs] is [list_runs] without a workflow name plus the
    metadata filter: the requests it sends are those of
    [list_runs(None, status, since_hours, limit)], each runs query carrying
    in addition [additional_metadata = {metadata_key: metadata_value}].
    Those requests are runs queries only: [search_runs] never requests the
    workflow listing. *)
Theorem search_runs_adds_metadata (key value : string) (status : option string)
    (since_hours limit : option Z) (w : world) :
  exists new,
    sent (list_runs None status since_hours limit w).2 = (sent w ++ new)%list /\
    sent (search_runs key value status since_hours limit w).2
    = (sent w ++ (with_metadata key value <$> new))%list /\
    Forall (fun req => exists params, req = RunsList params) new /\
    Forall (fun req => exists params, req = RunsList params)
           (with_metadata key value <$> new).
Proof.
  destruct (search_runs_requests key value status since_hours limit w)
    as (new & Hlist & Hsearch).
  exists new. split; [exact Hlist|]. split; [exact Hsearch|].
  assert (Hruns : Forall (fun req => exists params, req = RunsList params) new).
  { destruct (list_runs_no_name_sends (now w) status since_hours limit w eq_refl)
      as (new' & Hnew' & HP & _).
    rewrite Hlist in Hnew'. apply app_inv_head in Hnew' as ->.
    destruct (list_runs_sends (now w) None status since_hours limit w eq_refl)
      as (new2 & Hnew2 & HQ & _).
    rewrite Hlist in Hnew2. apply app_inv_head in Hnew2 as <-.
    rewrite Forall_forall in *. intros req Hreq.
    destruct (HQ req Hreq) as [->|[->|[ids ->]]]; eauto.
    now destruct (HP _ Hreq). }
  split; [exact Hruns|].
  apply Forall_fmap. eapply Forall_impl; [exact Hruns|].
  intros req [params ->]. simpl. eauto.
Qed.

(** ** How many requests an operation sends *)

Lemma calls_none {A} (m : M A) :
  (forall w, sent (m w).2 = sent w) -> calls_at_most 0 m.
Proof. intros H w. exists []. rewrite H, app_nil_r. auto. Qed.

Lemma calls_call hatchet req : calls_at_most 1 (remote_call hatchet req).
Proof.
  intros w. exists [req]. unfold remote_call.
  destruct (serve remote req (remote_state w)) as [r s']. auto.
Qed.

Lemma calls_client : calls_at_most 0 get_hatchet_client.
Proof.
  apply calls_none. intros w. unfold get_hatchet_client, construct_hatchet.
  destruct (client_cache w); [reflexivity|].
  destruct (hatchet_init remote (remote_state w)) as [[[]|e] s']; reflexivity.
Qed.

Lemma calls_bind {A B} (n1 n2 : nat) (m : M A) (k : A -> M B) :
  calls_at_most n1 m -> (forall a, calls_at_most n2 (k a)) ->
  calls_at_most (n1 + n2) (bind m k).
Proof.
  intros Hm Hk w. destruct (Hm w) as (new1 & Hs1 & Hl1). unfold bind.
  destruct (m w) as [[a|e] w1]; simpl in *.
  - destruct (Hk a w1) as (new2 & Hs2 & Hl2).
    exists (new1 ++ new2)%list. rewrite Hs2, Hs1, app_assoc, length_app. split; [auto|lia].
  - exists new1. split; [auto|lia].
Qed.

Lemma calls_try {A} (n : nat) (body : M A) (on_error : pyexn -> A) :
  calls_at_most n body -> calls_at_most n (try_except body (fun e => ret (on_error e))).
Proof.
  intros Hm w. destruct (Hm w) as (new & Hs & Hl). unfold try_except.
  destruct (body w) as [[a|e] w1]; simpl in *; [eauto|].
  destruct (is_Exception (exn_cls e)); simpl; eauto.
Qed.

Lemma calls_workflow_filter hatchet (workflow_name : option string) params :
  calls_at_most (if str_truthy workflow_name then 1 else 0)
    (add_workflow_filter hatchet workflow_name params).
Proof.
  unfold add_workflow_filter.
  destruct workflow_name as [name|]; [destruct (str_truthy (Some name))|];
    try (apply calls_none; reflexivity).
  apply (calls_bind 1 0); [apply calls_call|intros workflows].
  apply (calls_bind 0 0); [now apply calls_none|intros rows].
  apply (calls_bind 0 0); [now apply calls_none|intros ids].
  now apply calls_none.
Qed.

(** X18: every operation is at most two requests to the service.
    [list_workflows], [get_run_status], [get_run_result] and [search_runs]
    send at most one; [list_runs] and [get_queue_metrics] send at most
    two, and at most one when [workflow_name] is absent or empty. *)
Theorem remote_calls_bounded :
  calls_at_most 1 list_workflows /\
  (forall run_id, calls_at_most 1 (get_run_status run_id)) /\
  (forall run_id, calls_at_most 1 (get_run_result run_id)) /\
  (forall key value status since_hours limit,
      calls_at_most 1 (search_runs key value status since_hours limit)) /\
  (forall workflow_name status since_hours limit,
      calls_at_most (if str_truthy workflow_name then 2 else 1)
        (list_runs workflow_name status since_hours limit)) /\
  (forall workflow_name,
      calls_at_most (if str_truthy workflow_name then 2 else 1)
        (get_queue_metrics workflow_name)).
Proof.
  repeat apply conj; intros; unfold_operations; apply calls_try.
  - unfold list_workflows_try.
    apply (calls_bind 0 1); [apply calls_client|intros hatchet].
    apply (calls_bind 1 0); [apply calls_call|intros workflows].
    apply (calls_bind 0 0); [now apply calls_none|intros rows]. now apply calls_none.
  - unfold get_run_status_try.
    apply (calls_bind 0 1); [apply calls_client|intros hatchet].
    apply (calls_bind 1 0); [apply calls_call|intros status]. now apply calls_none.
  - unfold get_run_result_try.
    apply (calls_bind 0 1); [apply calls_client|intros hatchet].
    apply (calls_bind 1 0); [apply calls_call|intros result]. now apply calls_none.
  - unfold search_runs_try.
    apply (calls_bind 0 1); [apply calls_client|intros hatchet].
    apply (calls_bind 0 1); [now apply calls_none|intros t].
    apply (calls_bind 0 1); [now apply calls_none|intros delta].
    apply (calls_bind 0 1); [now apply calls_none|intros since].
    apply (calls_bind 1 0); [apply calls_call|intros runs].
    apply (calls_bind 0 0); [now apply calls_none|intros rows]. now apply calls_none.
  - unfold list_runs_try.
    apply (calls_bind 0 (if str_truthy workflow_name then 2 else 1));
      [apply calls_client|intros hatchet].
    apply (calls_bind 0 (if str_truthy workflow_name then 2 else 1));
      [now apply calls_none|intros t].
    apply (calls_bind 0 (if str_truthy workflow_name then 2 else 1));
      [now apply calls_none|intros delta].
    apply (calls_bind 0 (if str_truthy workflow_name then 2 else 1));
      [now apply calls_none|intros since].
    replace (if str_truthy workflow_name then 2 else 1)%nat
      with ((if str_truthy workflow_name then 1 else 0) + 1)%nat
      by (destruct (str_truthy workflow_name); reflexivity).
    apply calls_bind; [apply calls_workflow_filter|intros p].
    apply (calls_bind 1 0); [apply calls_call|intros runs].
    apply (calls_bind 0 0); [now apply calls_none|intros rows]. now apply calls_none.
  - unfold get_queue_metrics_try.
    apply (calls_bind 0 (if str_truthy workflow_name then 2 else 1));
      [apply calls_client|intros hatchet].
    apply (calls_bind 0 (if str_truthy workflow_name then 2 else 1));
      [now apply calls_none|intros t].
    apply (calls_bind 0 (if str_truthy workflow_name then 2 else 1));
      [now apply calls_none|intros delta].
    apply (calls_bind 0 (if str_truthy workflow_name then 2 else 1));
      [now apply calls_none|intros since].
    replace (if str_truthy workflow_name then 2 else 1)%nat
      with ((if str_truthy workflow_name then 1 else 0) + 1)%nat
      by (destruct (str_truthy workflow_name); reflexivity).
    apply calls_bind; [apply calls_workflow_filter|intros p].
    apply (calls_bind 1 0); [apply calls_call|intros runs].
    apply (calls_bind 0 0); [now apply calls_none|intros rows].
    apply (calls_bind 0 0); [now apply calls_none|intros counts]. now apply calls_none.
Qed.

(** ** Resolving ids *)

Lemma rmapM_ok_iff {A B} (f : A -> result B) (l : list A) :
  (exists l', rmapM f l = Ok l') <-> Forall (fun a => exists b, f a = Ok b) l.
Proof.
  induction l as [|a l IH]; simpl.
  - split; [constructor|eauto].
  - split.
    + intros [l' H]. destruct (f a) as [b|e] eqn:Hb; simpl in H; [|discriminate].
      destruct (rmapM f l) as [bs|e]; simpl in H; [|discriminate].
      constructor; [eauto|]. apply IH. eauto.
    + intros H. inversion H as [|? ? [b Hb] Hl]; subst.
      apply IH in Hl as [bs Hbs]. rewrite Hb, Hbs. simpl. eauto.
Qed.

Lemma rmapM_length {A B} (f : A -> result B) (l : list A) (l' : list B) :
  rmapM f l = Ok l' -> length l' = length l.
Proof.
  revert l'. induction l as [|a l IH]; simpl; intros l'.
  - now intros [= <-].
  - destruct (f a); simpl; [|discriminate].
    destruct (rmapM f l) as [bs|]; simpl; [|discriminate].
    intros [= <-]. simpl. f_equal. now apply IH.
Qed.

Lemma rmapM_Forall2 {A B} (f : A -> result B) (l : list A) (l' : list B) :
  rmapM f l = Ok l' -> Forall2 (fun a b => f a = Ok b) l l'.
Proof.
  revert l'. induction l as [|a l IH]; simpl; intros l'.
  - intros [= <-]. constructor.
  - destruct (f a) as [b|e] eqn:Hb; simpl; [|discriminate].
    destruct (rmapM f l) as [bs|e]; simpl; [|discriminate].
    intros [= <-]. constructor; auto.
Qed.

(** X19: name resolution reads the nested [metadata.id] of the matching
    workflows, and of those only. A workflow matches when its [name] is a
    string with the content of the requested name. Resolution yields ids
    exactly when every matching workflow has [metadata] with an [id]; the
    ids are then the [metadata.id] of the matching workflows, one per
    match and in the order of the listing. A workflow of another name, or
    without a name, may lack [metadata] altogether without harm. *)
Theorem workflow_ids_ok_iff (workflow_name : string) (rows : list pyval) :
  (forall x,
      name_matches workflow_name x = true <->
      exists n, py_getattr x "name" = Some n /\ str_content n = Some workflow_name) /\
  ((exists ids, matching_workflow_ids workflow_name rows = Ok ids) <->
   Forall (fun x => name_matches workflow_name x = true ->
                    exists metadata id,
                      py_getattr x "metadata" = Some metadata /\
                      py_getattr metadata "id" = Some id)
          rows) /\
  (forall ids,
      matching_workflow_ids workflow_name rows = Ok ids ->
      Forall2 (fun x id => exists metadata,
                   py_getattr x "metadata" = Some metadata /\
                   py_getattr metadata "id" = Some id)
              (filter (fun x => name_matches workflow_name x = true) rows) ids).
Proof.
  assert (Hid : forall x id,
    workflow_id_of x = Ok id <->
    exists metadata, py_getattr x "metadata" = Some metadata /\
                     py_getattr metadata "id" = Some id).
  { intros x id. apply workflow_id_of_attrs. }
  split; [intros x; apply name_matches_exact|].
  rewrite matching_workflow_ids_filter. split.
  - rewrite rmapM_ok_iff, !Forall_forall. split.
    + intros H x Hx Hm.
      destruct (H x) as [id Hx']; [apply list_elem_of_filter; auto|].
      apply Hid in Hx' as (m & Hm1 & Hm2). eauto.
    + intros H x [Hm Hx]%list_elem_of_filter.
      destruct (H x Hx Hm) as (m & id & Hm1 & Hm2). exists id. apply Hid. eauto.
  - intros ids Hids. apply rmapM_Forall2 in Hids.
    eapply Forall2_impl; [exact Hids|]. intros x id. apply Hid.
Qed.

Lemma rmapM_lookup {A B} (f : A -> result B) (l : list A) (l' : list B) :
  rmapM f l = Ok l' ->
  forall (i : nat) (a : A), l !! i = Some a -> exists b, l' !! i = Some b /\ f a = Ok b.
Proof.
  revert l'. induction l as [|x l IH]; simpl; intros l' H i a Hi; [discriminate|].
  destruct (f x) as [b|e] eqn:Hb; simpl in H; [|discriminate].
  destruct (rmapM f l) as [bs|e]; simpl in H; [|discriminate].
  injection H as <-. destruct i as [|i]; simpl in *.
  - injection Hi as <-. eauto.
  - eauto.
Qed.

(** X20: when every run of the answer flattens, [list_runs] returns one
    record per run, in the order of the answer: as many records as rows,
    the record at each position being the flattening of the row at that
    position. *)
Theorem list_runs_one_record_per_row (workflow_name status : option string)
    (since_hours limit : option Z) (w w1 w2 w3 : world) (h : Hatchet)
    (params : gmap string pyval) (answer : pyval) (rows : list pyval) :
  get_hatchet_client w = (Ok h, w1) ->
  window_ok (now w) (default 24 since_hours) ->
  add_workflow_filter h workflow_name
    (add_status_filter status
       {[ "since" := VDatetime (now w - default 24 since_hours * US_PER_HOUR);
          "limit" := VInt (default 50 limit) ]}) w1
  = (Ok params, w2) ->
  remote_call h (RunsList params) w2 = (Ok answer, w3) ->
  rows_or_empty answer = Ok rows ->
  Forall (fun run => is_raise (_serialize_run run) = false) rows ->
  exists records,
    list_runs workflow_name status since_hours limit w = (Ok records, w3) /\
    length records = length rows /\
    (forall (i : nat) (run : pyval),
        rows !! i = Some run ->
        exists d, records !! i = Some d /\ _serialize_run run = Ok d).
Proof.
  intros Hc [Hd Hr]%window_ok_since Hf Hq Hrows Hall.
  destruct (get_hatchet_client_ok _ _ _ Hc) as (_ & Hnow & _).
  assert (Hok : exists records, rmapM _serialize_run rows = Ok records).
  { apply rmapM_ok_iff. eapply Forall_impl; [exact Hall|].
    intros run. simpl. destruct (_serialize_run run); [eauto|discriminate]. }
  destruct Hok as [records Hrec]. exists records. split; [|split].
  - unfold list_runs, list_runs_try, try_except, bind, datetime_now, lift.
    now rewrite Hc, Hnow, Hd, Hr, Hf, Hq, Hrows, Hrec.
  - exact (rmapM_length _ _ _ Hrec).
  - exact (rmapM_lookup _ _ _ Hrec).
Qed.

(** ** Calls whose status is not recognised go ahead *)

Lemma rmapM_serialize_raise_class (rows : list pyval) (e : pyexn) :
  rmapM _serialize_run rows = Raise e -> is_Exception (exn_cls e) = true.
Proof.
  induction rows as [|run rows IH]; simpl; [discriminate|].
  destruct (_serialize_run run) as [d|e1] eqn:Hrun; simpl.
  - destruct (rmapM _serialize_run rows) as [ds|e2]; simpl; [discriminate|].
    intros [= <-]. now apply IH.
  - intros [= <-]. exact (serialize_run_raise_class _ _ Hrun).
Qed.

(** Once the client is held, the window is representable and the workflow
    block has left [params], [list_runs] without a translated status sends
    the runs query on [params] and answers with the flattening of what
    comes back. *)
Lemma list_runs_proceeds (status workflow_name : option string)
    (since_hours limit : option Z) (w w1 w2 : world) (h : Hatchet)
    (params : gmap string pyval) :
  translate status = None ->
  get_hatchet_client w = (Ok h, w1) ->
  window_ok (now w) (default 24 since_hours) ->
  add_workflow_filter h workflow_name
    {[ "since" := VDatetime (now w - default 24 since_hours * US_PER_HOUR);
       "limit" := VInt (default 50 limit) ]} w1
  = (Ok params, w2) ->
  params !! "statuses" = None /\
  sent (list_runs workflow_name status since_hours limit w).2
  = (sent w2 ++ [RunsList params])%list /\
  (forall answer w3 rows,
      remote_call h (RunsList params) w2 = (Ok answer, w3) ->
      rows_or_empty answer = Ok rows ->
      list_runs workflow_name status since_hours limit w
      = (match rmapM _serialize_run rows with
         | Ok records => Ok records
         | Raise e => Ok [error_dict e]
         end, w3)).
Proof.
  intros Ht Hc [Hd Hr]%window_ok_since Hf.
  destruct (get_hatchet_client_ok _ _ _ Hc) as (_ & Hnow & _).
  rewrite (list_runs_untranslated _ _ _ _ Ht).
  split; [|split].
  - destruct (sends_workflow_filter (now w) ∅ h workflow_name
                {[ "since" := VDatetime (now w - default 24 since_hours * US_PER_HOUR);
                   "limit" := VInt (default 50 limit) ]} w1 Hnow)
      as (_ & _ & _ & _ & Hp).
    rewrite Hf in Hp. destruct (Hp params eq_refl) as [->|[ids ->]]; reflexivity.
  - unfold list_runs, list_runs_try, try_except, bind, datetime_now, lift.
    rewrite Hc, Hnow, Hd, Hr.
    change (add_status_filter None ?p) with p. rewrite Hf.
    destruct (remote_call h (RunsList params) w2) as [[answer|e] w3] eqn:Hq;
      destruct (remote_call_inv _ _ _ _ _ Hq) as (_ & _ & _ & Hsent).
    + destruct (rows_or_empty answer) as [rows|e]; simpl;
        [destruct (rmapM _serialize_run rows) as [l|e]; simpl|];
        try destruct (is_Exception (exn_cls e)); simpl; exact Hsent.
    + destruct (is_Exception (exn_cls e)); simpl; exact Hsent.
  - intros answer w3 rows Hq Hrows.
    unfold list_runs, list_runs_try, try_except, bind, datetime_now, lift.
    rewrite Hc, Hnow, Hd, Hr.
    change (add_status_filter None ?p) with p. rewrite Hf, Hq, Hrows.
    destruct (rmapM _serialize_run rows) as [l|e] eqn:Hl; [reflexivity|].
    now rewrite (rmapM_serialize_raise_class _ _ Hl).
Qed.

Lemma search_runs_proceeds (status : option string) (key value : string)
    (since_hours limit : option Z) (w w1 : world) (h : Hatchet) :
  translate status = None ->
  get_hatchet_client w = (Ok h, w1) ->
  window_ok (now w) (default 24 since_hours) ->
  let params : gmap string pyval :=
    {[ "since" := VDatetime (now w - default 24 since_hours * US_PER_HOUR);
       "limit" := VInt (default 50 limit);
       "additional_metadata" := VDict {[ key := VStr value ]} ]} in
  sent (search_runs key value status since_hours limit w).2
  = (sent w ++ [RunsList params])%list /\
  (forall answer w3 rows,
      remote_call h (RunsList params) w1 = (Ok answer, w3) ->
      rows_or_empty answer = Ok rows ->
      search_runs key value status since_hours limit w
      = (match rmapM _serialize_run rows with
         | Ok records => Ok records
         | Raise e => Ok [error_dict e]
         end, w3)).
Proof.
  intros Ht Hc [Hd Hr]%window_ok_since params.
  destruct (get_hatchet_client_ok _ _ _ Hc) as (_ & Hnow & Hsent1).
  rewrite (search_runs_untranslated _ _ _ _ _ Ht).
  split.
  - unfold search_runs, search_runs_try, try_except, bind, datetime_now, lift.
    rewrite Hc, Hnow, Hd, Hr.
    change (add_status_filter None ?p) with p. fold params.
    destruct (remote_call h (RunsList params) w1) as [[answer|e] w3] eqn:Hq;
      destruct (remote_call_inv _ _ _ _ _ Hq) as (_ & _ & _ & Hsent).
    + destruct (rows_or_empty answer) as [rows|e]; simpl;
        [destruct (rmapM _serialize_run rows) as [l|e]; simpl|];
        try destruct (is_Exception (exn_cls e)); simpl; congruence.
    + destruct (is_Exception (exn_cls e)); simpl; congruence.
  - intros answer w3 rows Hq Hrows.
    unfold search_runs, search_runs_try, try_except, bind, datetime_now, lift.
    rewrite Hc, Hnow, Hd, Hr.
    change (add_status_filter None ?p) with p. fold params. rewrite Hq, Hrows.
    destruct (rmapM _serialize_run rows) as [l|e] eqn:Hl; [reflexivity|].
    now rewrite (rmapM_serialize_raise_class _ _ Hl).
Qed.

(** C3: an unrecognised status string changes nothing and stops nothing.
    [list_runs] and [search_runs] do exactly what they do without a status
    argument, and no runs query they send has a [statuses] parameter. They
    do build and send their runs query: once the client is held and the
    window is representable, [search_runs] sends the query made of
    [since], [limit] and the metadata filter alone, [list_runs] the query
    the workflow block leaves, without [statuses]; and what they return is
    the flattening of the rows that come back, not an error for the status
    and not an empty list. *)
Theorem unrecognized_status_ignored (s : string) :
  STATUS_MAP !! lower s = None ->
  (forall workflow_name since_hours limit w,
      list_runs workflow_name (Some s) since_hours limit w
      = list_runs workflow_name None since_hours limit w) /\
  (forall key value since_hours limit w,
      search_runs key value (Some s) since_hours limit w
      = search_runs key value None since_hours limit w) /\
  (forall workflow_name since_hours limit w,
      exists new,
        sent (list_runs workflow_name (Some s) since_hours limit w).2
        = (sent w ++ new)%list /\ Forall no_status_filter new) /\
  (forall key value since_hours limit w,
      exists new,
        sent (search_runs key value (Some s) since_hours limit w).2
        = (sent w ++ new)%list /\ Forall no_status_filter new) /\
  (forall workflow_name since_hours limit w w1 w2 h params,
      get_hatchet_client w = (Ok h, w1) ->
      window_ok (now w) (default 24 since_hours) ->
      add_workflow_filter h workflow_name
        {[ "since" := VDatetime (now w - default 24 since_hours * US_PER_HOUR);
           "limit" := VInt (default 50 limit) ]} w1
      = (Ok params, w2) ->
      params !! "statuses" = None /\
      sent (list_runs workflow_name (Some s) since_hours limit w).2
      = (sent w2 ++ [RunsList params])%list /\
      (forall answer w3 rows,
          remote_call h (RunsList params) w2 = (Ok answer, w3) ->
          rows_or_empty answer = Ok rows ->
          list_runs workflow_name (Some s) since_hours limit w
          = (match rmapM _serialize_run rows with
             | Ok records => Ok records
             | Raise e => Ok [error_dict e]
             end, w3))) /\
  (forall key value since_hours limit w w1 h,
      get_hatchet_client w = (Ok h, w1) ->
      window_ok (now w) (default 24 since_hours) ->
      sent (search_runs key value (Some s) since_hours limit w).2
      = (sent w ++
         [RunsList {[ "since" := VDatetime (now w - default 24 since_hours * US_PER_HOUR);
                      "limit" := VInt (default 50 limit);
                      "additional_metadata" := VDict {[ key := VStr value ]} ]}])%list /\
      (forall answer w3 rows,
          remote_call h
            (RunsList {[ "since" :=
                           VDatetime (now w - default 24 since_hours * US_PER_HOUR);
                         "limit" := VInt (default 50 limit);
                         "additional_metadata" := VDict {[ key := VStr value ]} ]}) w1
          = (Ok answer, w3) ->
          rows_or_empty answer = Ok rows ->
          search_runs key value (Some s) since_hours limit w
          = (match rmapM _serialize_run rows with
             | Ok records => Ok records
             | Raise e => Ok [error_dict e]
             end, w3))).
Proof.
  intros Hs.
  assert (Ht : translate (Some s) = None) by now rewrite translate_lookup.
  split; [intros; now rewrite list_runs_untranslated|].
  split; [intros; now rewrite search_runs_untranslated|].
  split; [intros; now apply list_runs_no_status_filter|].
  split; [intros; now apply search_runs_no_status_filter|].
  split.
  - intros workflow_name since_hours limit w w1 w2 h params Hc Hw Hf.
    exact (list_runs_proceeds _ _ _ _ _ _ _ _ _ Ht Hc Hw Hf).
  - intros key value since_hours limit w w1 h Hc Hw.
    exact (search_runs_proceeds _ key value since_hours limit _ _ _ Ht Hc Hw).
Qed.

End Facade.

(* ================================================================= *)
(** * The statements at concrete inputs *)

Lemma translate_recognized_witness :
  case_mixture "failed" "FaIlEd" /\ translate (Some "FaIlEd") = Some FAILED.
Proof.
  assert (H : case_mixture "failed" "FaIlEd")
    by (apply case_mixtures_sound; vm_compute; set_solver).
  split; [exact H|].
  destruct (translate_recognized "FaIlEd") as (_ & _ & _ & _ & Hf & _).
  exact (Hf H).
Defined.

Lemma serialize_run_str_status_raises_witness :
  _serialize_run demo_str (VObj "Run" "run-1" {[ "status" := VStr "RUNNING" ]})
  = Raise (Exn AttributeError "'str' object has no attribute 'value'").
Proof.
  apply (serialize_run_str_status_raises demo_str _ "RUNNING"). reflexivity.
Defined.

Lemma serialize_run_bare_witness :
  _serialize_run demo_str (VObj "object" "<object object at 0x7f>" ∅)
  = Ok {[ "id" := VStr "<object object at 0x7f>";
          "workflow_id" := VNone;
          "workflow_name" := VNone;
          "status" := VNone;
          "created_at" := VNone;
          "started_at" := VNone;
          "finished_at" := VNone;
          "additional_metadata" := VDict ∅ ]}.
Proof.
  apply (serialize_run_bare demo_str (VObj "object" "<object object at 0x7f>" ∅));
    reflexivity.
Defined.

Lemma unrecognized_status_ignored_witness :
  STATUS_MAP !! lower "BoGuS" = None /\
  sent unit (list_runs unit demo_remote demo_str None (Some "BoGuS") None None
               (imported unit demo_now tt)).2
  = [RunsList {[ "since" := VDatetime (demo_now - 24 * US_PER_HOUR);
                 "limit" := VInt 50 ]}] /\
  (exists records,
      (list_runs unit demo_remote demo_str None (Some "BoGuS") None None
         (imported unit demo_now tt)).1 = Ok records /\
      length records = 4%nat) /\
  sent unit (search_runs unit demo_remote demo_str "audit_id" "A-42" (Some "BoGuS") None None
               (imported unit demo_now tt)).2
  = [RunsList {[ "since" := VDatetime (demo_now - 24 * US_PER_HOUR);
                 "limit" := VInt 50;
                 "additional_metadata" := VDict {[ "audit_id" := VStr "A-42" ]} ]}].
Proof.
  pose (w := imported unit demo_now tt).
  pose (w1 := (get_hatchet_client unit demo_remote w).2).
  pose (params := ({[ "since" := VDatetime (demo_now - 24 * US_PER_HOUR);
                      "limit" := VInt 50 ]} : gmap string pyval)).
  assert (Hw : window_ok (now unit w) (default 24 None)) by (split; split; vm_compute; easy).
  split; [reflexivity|].
  destruct (unrecognized_status_ignored unit demo_remote demo_str "BoGuS" eq_refl)
    as (_ & _ & _ & _ & Hlist & Hsearch).
  destruct (Hlist None None None w w1 w1 (Handle 0) params eq_refl Hw eq_refl)
    as (_ & Hsent & Hrun).
  split; [exact Hsent|]. split.
  - eexists. split.
    + exact (f_equal fst
               (Hrun (VObj "V1TaskSummaryList" "V1TaskSummaryList"
                           {[ "rows" := VList demo_runs ]})
                     (remote_call unit demo_remote (Handle 0) (RunsList params) w1).2
                     demo_runs eq_refl eq_refl)).
    + reflexivity.
  - destruct (Hsearch "audit_id" "A-42" None None w w1 (Handle 0) eq_refl Hw) as (H & _).
    exact H.
Defined.

Lemma workflow_name_resolution_witness :
  sent unit (list_runs unit demo_remote demo_str (Some "qa-workflow") None None None
               (imported unit demo_now tt)).2
  = [WorkflowsList;
     RunsList (<["workflow_ids" := VList [VStr "wf-1"]]>
                 {[ "since" := VDatetime (demo_now - 24 * US_PER_HOUR);
                    "limit" := VInt 50 ]})] /\
  (list_runs unit demo_remote demo_str (Some "nonexistent-wf") None (Some 24) (Some 50)
     (imported unit demo_now tt)).1
  = (list_runs unit demo_remote demo_str None None (Some 24) (Some 50)
       (imported unit demo_now tt)).1.
Proof.
  pose (w := imported unit demo_now tt).
  pose (w1 := (get_hatchet_client unit demo_remote w).2).
  pose (w2 := (remote_call unit demo_remote (Handle 0) WorkflowsList w1).2).
  pose (listing := VObj "WorkflowList" "WorkflowList" {[ "rows" := VList demo_workflows ]}).
  assert (Hw : window_ok (now unit w) 24) by (split; split; vm_compute; easy).
  split.
  - assert (Hne : "qa-workflow" <> "") by discriminate.
    destruct (workflow_name_resolution unit demo_remote demo_str "qa-workflow" w w1 w2
                (Handle 0) listing demo_workflows Hne eq_refl eq_refl eq_refl)
      as (_ & _ & _ & _ & _ & H & _).
    exact (H None None None (VStr "wf-1") [] Hw eq_refl).
  - assert (Hne : "nonexistent-wf" <> "") by discriminate.
    assert (Hnone : Forall (fun x => name_matches "nonexistent-wf" x = false) demo_workflows)
      by (repeat constructor).
    destruct (workflow_name_resolution unit demo_remote demo_str "nonexistent-wf" w w1 w2
                (Handle 0) listing demo_workflows Hne eq_refl eq_refl eq_refl)
      as (_ & _ & _ & _ & _ & _ & _ & H).
    destruct (H Hnone) as (Hl & _).
    destruct (Hl None (Some 24) (Some 50) Hw) as (_ & Hsame).
    exact (Hsame eq_refl).
Defined.

Lemma exceptions_become_errors_witness :
  is_Exception (exn_cls not_found) = true /\
  (get_run_status unit demo_remote demo_str "run-123" (imported unit demo_now tt)).1
  = Ok {[ "error" := VStr "(404) Reason: Not Found"; "run_id" := VStr "run-123" ]} /\
  is_Exception CancelledError = false /\
  (get_run_status unit cancelled_remote demo_str "run-123" (imported unit demo_now tt)).1
  = Raise (Exn CancelledError "").
Proof.
  split; [reflexivity|].
  pose (w := imported unit demo_now tt).
  split.
  - destruct (exceptions_become_errors unit demo_remote demo_str not_found w w eq_refl)
      as (_ & _ & _ & _ & _ & _ & H & _).
    exact (H "run-123" (Handle 0) (get_hatchet_client unit demo_remote w).2 tt
             eq_refl eq_refl).
  - split; [reflexivity|].
    destruct (exceptions_become_errors unit cancelled_remote demo_str not_found w w eq_refl)
      as (_ & _ & _ & _ & _ & _ & _ & _ & _ & _ & H).
    destruct (H (Exn CancelledError "") w eq_refl) as (_ & _ & _ & _ & _ & _ & Hs & _).
    exact (Hs "run-123" (Handle 0) (get_hatchet_client unit cancelled_remote w).2 tt
              eq_refl eq_refl).
Defined.

(** C6 as stated fails where the awaited call is cancelled:
    [asyncio.CancelledError] is no [Exception], so [get_run_status] hands
    it on to its caller instead of returning an error value. *)
Lemma cancellation_escapes :
  serve cancelled_remote (RunsGet "run-123") tt = (Raise (Exn CancelledError ""), tt) /\
  (get_run_status unit cancelled_remote demo_str "run-123" (imported unit demo_now tt)).1
  = Raise (Exn CancelledError "").
Proof. split; reflexivity. Qed.


Lemma client_is_cached_witness :
  get_hatchet_client unit demo_remote (imported unit demo_now tt)
  = (Ok (Handle 0), World unit demo_now (Some (Handle 0)) 1 tt []) /\
  get_hatchet_client unit demo_remote (World unit demo_now (Some (Handle 0)) 1 tt [])
  = (Ok (Handle 0), World unit demo_now (Some (Handle 0)) 1 tt []).
Proof.
  split; [reflexivity|].
  destruct (client_is_cached unit demo_remote demo_str (imported unit demo_now tt)
              (World unit demo_now (Some (Handle 0)) 1 tt []) (Handle 0) eq_refl)
    as (H & _).
  exact H.
Defined.

Lemma search_runs_query_witness :
  translate (Some "failed") = Some FAILED /\
  sent unit (search_runs unit demo_remote demo_str "audit_id" "A-42" (Some "failed") None None
               (imported unit demo_now tt)).2
  = [RunsList {[ "since" := VDatetime (demo_now - 24 * US_PER_HOUR);
                 "limit" := VInt 50;
                 "additional_metadata" := VDict {[ "audit_id" := VStr "A-42" ]};
                 "statuses" := VList [V1TaskStatus_member FAILED] ]}].
Proof.
  split; [reflexivity|].
  pose (w := imported unit demo_now tt).
  assert (Hw : window_ok (now unit w) (default 24 None)) by (split; split; vm_compute; easy).
  destruct (search_runs_query unit demo_remote demo_str "audit_id" "A-42" "failed" None None
              FAILED w eq_refl) as (_ & H).
  exact (H (Handle 0) (get_hatchet_client unit demo_remote w).2 eq_refl Hw).
Defined.

(** ** Further runs of the model *)

(** The same run, with its status a plain string, through both readers:
    [get_run_status] answers with the [AttributeError] of the flattener,
    [get_queue_metrics] counts the run as running. *)
Example get_run_status_string_status :
  (get_run_status unit string_status_remote demo_str "r9" (imported unit demo_now tt)).1
  = Ok {[ "error" := VStr "'str' object has no attribute 'value'";
          "run_id" := VStr "r9" ]}.
Proof. reflexivity. Qed.

Example get_queue_metrics_string_status :
  (get_queue_metrics unit string_status_remote demo_str None (imported unit demo_now tt)).1
  = Ok {[ "workflow_name" := VStr "all";
          "time_range_hours" := VInt 24;
          "counts" := VDict {[ "queued" := VInt 0;
                               "running" := VInt 1;
                               "completed" := VInt 0;
                               "failed" := VInt 0;
                               "cancelled" := VInt 0;
                               "total" := VInt 1 ]} ]}.
Proof. reflexivity. Qed.

Example get_run_status_not_found :
  get_run_status unit demo_remote demo_str "run-123" (imported unit demo_now tt)
  = (Ok {[ "error" := VStr "(404) Reason: Not Found"; "run_id" := VStr "run-123" ]},
     World unit demo_now (Some (Handle 0)) 1 tt [RunsGet "run-123"]).
Proof. reflexivity. Qed.

(** A window that reaches before year 1 is no [datetime]: the operation
    reports the [OverflowError] and sends nothing. *)
Example list_runs_window_out_of_range :
  list_runs unit demo_remote demo_str None None (Some 20000000) None
    (imported unit demo_now tt)
  = (Ok [{[ "error" := VStr "date value out of range" ]}],
     World unit demo_now (Some (Handle 0)) 1 tt []).
Proof. reflexivity. Qed.

Example list_runs_filtered_by_workflow :
  sent unit (list_runs unit demo_remote demo_str (Some "qa-workflow") (Some "Succeeded")
               None None (imported unit demo_now tt)).2
  = [WorkflowsList;
     RunsList {[ "since" := VDatetime (demo_now - 24 * US_PER_HOUR);
                 "limit" := VInt 50;
                 "statuses" := VList [V1TaskStatus_member COMPLETED];
                 "workflow_ids" := VList [VStr "wf-1"] ]}].
Proof. reflexivity. Qed.

(** ** The further properties at concrete inputs *)

Lemma serialize_run_shape_witness :
  dom (<[ "status" := VStr "COMPLETED" ]>
         (<[ "id" := VStr "r1" ]>
            ({[ "workflow_id" := VNone; "workflow_name" := VNone;
                "created_at" := VNone; "started_at" := VNone; "finished_at" := VNone;
                "additional_metadata" := VDict ∅ ]} : gmap string pyval)))
  = run_keys.
Proof.
  destruct (serialize_run_shape demo_str (demo_run "r1" (V1TaskStatus_member COMPLETED))
              (<[ "status" := VStr "COMPLETED" ]>
                 (<[ "id" := VStr "r1" ]>
                    {[ "workflow_id" := VNone; "workflow_name" := VNone;
                       "created_at" := VNone; "started_at" := VNone;
                       "finished_at" := VNone; "additional_metadata" := VDict ∅ ]}))
              eq_refl) as (H & _).
  exact H.
Defined.

Lemma list_workflows_rows_witness :
  list_workflows unit demo_remote demo_str (imported unit demo_now tt)
  = (Ok (_serialize_workflow demo_str <$> demo_workflows),
     World unit demo_now (Some (Handle 0)) 1 tt [WorkflowsList]).
Proof.
  pose (w := imported unit demo_now tt).
  destruct (list_workflows_rows unit demo_remote demo_str w
              (get_hatchet_client unit demo_remote w).2
              (World unit demo_now (Some (Handle 0)) 1 tt [WorkflowsList])
              (Handle 0)
              (VObj "WorkflowList" "WorkflowList" {[ "rows" := VList demo_workflows ]})
              eq_refl eq_refl) as (_ & H & _).
  exact (H demo_workflows eq_refl).
Defined.

Lemma get_run_result_passes_through_witness :
  get_run_result nat flaky_remote "run-7" (imported nat demo_now 1%nat)
  = (Ok {[ "run_id" := VStr "run-7"; "result" := VDict {[ "answer" := VInt 42 ]} ]},
     World nat demo_now (Some (Handle 0)) 1 2%nat [RunsGetResult "run-7"]).
Proof.
  pose (w := imported nat demo_now 1%nat).
  destruct (get_run_result_passes_through nat flaky_remote "run-7" w
              (get_hatchet_client nat flaky_remote w).2
              (World nat demo_now (Some (Handle 0)) 1 2%nat [RunsGetResult "run-7"])
              (Handle 0) (VDict {[ "answer" := VInt 42 ]}) eq_refl eq_refl) as (H & _).
  exact H.
Defined.

Lemma get_run_status_flattens_witness :
  (get_run_status nat flaky_remote demo_str "run-7" (imported nat demo_now 1%nat)).1
  = Ok {[ "id" := VStr "run-7";
          "workflow_id" := VNone;
          "workflow_name" := VNone;
          "status" := VStr "RUNNING";
          "created_at" := VNone;
          "started_at" := VNone;
          "finished_at" := VNone;
          "additional_metadata" := VDict ∅ ]}.
Proof.
  pose (w := imported nat demo_now 1%nat).
  destruct (get_run_status_flattens nat flaky_remote demo_str "run-7" w
              (get_hatchet_client nat flaky_remote w).2
              (World nat demo_now (Some (Handle 0)) 1 2%nat [RunsGet "run-7"])
              (Handle 0) (demo_run "run-7" (V1TaskStatus_member RUNNING))
              eq_refl eq_refl) as (_ & H).
  exact (f_equal fst H).
Defined.

Lemma failed_construction_not_cached_witness :
  get_hatchet_client nat flaky_remote (imported nat demo_now 0%nat)
  = (Raise (Exn (OtherException "ValidationError") "Token must be set"),
     World nat demo_now None 1 1%nat []) /\
  get_hatchet_client nat flaky_remote (World nat demo_now None 1 1%nat [])
  = (Ok (Handle 1), World nat demo_now (Some (Handle 1)) 2 2%nat []).
Proof.
  split; [reflexivity|].
  destruct (failed_construction_not_cached nat flaky_remote (imported nat demo_now 0%nat)
              (World nat demo_now None 1 1%nat [])
              (Exn (OtherException "ValidationError") "Token must be set") eq_refl)
    as (_ & _ & _ & _ & _ & H).
  exact (H 2%nat eq_refl).
Defined.

Lemma operations_report_failed_construction_witness :
  get_queue_metrics nat flaky_remote demo_str None (imported nat demo_now 0%nat)
  = (Ok {[ "error" := VStr "Token must be set" ]}, World nat demo_now None 1 1%nat []).
Proof.
  destruct (operations_report_failed_construction nat flaky_remote demo_str
              (imported nat demo_now 0%nat)
              (Exn (OtherException "ValidationError") "Token must be set") 1%nat
              eq_refl eq_refl eq_refl) as (_ & _ & _ & _ & H & _).
  exact (H None).
Defined.

Lemma window_out_of_range_witness :
  ~ window_ok demo_now 20000000 /\
  exists e,
    exn_cls e = OverflowError /\
    list_runs unit demo_remote demo_str (Some "qa-workflow") None (Some 20000000) None
      (imported unit demo_now tt)
    = (Ok [error_dict e], World unit demo_now (Some (Handle 0)) 1 tt []).
Proof.
  assert (Hw : ~ window_ok demo_now 20000000).
  { intros [_ [Hlo _]]. vm_compute in Hlo. now apply Hlo. }
  split; [exact Hw|].
  destruct (window_out_of_range unit demo_remote demo_str (Some "qa-workflow") None
              "audit_id" "A-42" (Some 20000000) None (imported unit demo_now tt)
              (World unit demo_now (Some (Handle 0)) 1 tt []) (Handle 0) eq_refl Hw)
    as (_ & _ & e & He & Hl & _).
  exists e. split; [exact He|exact Hl].
Defined.

Lemma tally_bounds_witness :
  (counter {[ "queued" := 0; "running" := 0; "completed" := 2; "failed" := 1;
              "cancelled" := 0; "total" := 4 ]} "completed"
   + counter {[ "queued" := 0; "running" := 0; "completed" := 2; "failed" := 1;
                "cancelled" := 0; "total" := 4 ]} "failed" <= 4)%Z.
Proof.
  destruct (tally_bounds demo_str demo_runs
              {[ "queued" := 0; "running" := 0; "completed" := 2; "failed" := 1;
                 "cancelled" := 0; "total" := 4 ]} eq_refl) as (_ & _ & H).
  vm_compute in H. vm_compute. destruct H as [H _]. exact H.
Defined.

Lemma list_runs_all_or_nothing_witness :
  list_runs unit mixed_remote demo_str None None None None (imported unit demo_now tt)
  = (Ok [{[ "error" := VStr "'str' object has no attribute 'value'" ]}],
     World unit demo_now (Some (Handle 0)) 1 tt
       [RunsList {[ "since" := VDatetime (demo_now - 24 * US_PER_HOUR);
                    "limit" := VInt 50 ]}]).
Proof.
  pose (w := imported unit demo_now tt).
  pose (w1 := (get_hatchet_client unit mixed_remote w).2).
  pose (params := ({[ "since" := VDatetime (demo_now - 24 * US_PER_HOUR);
                      "limit" := VInt 50 ]} : gmap string pyval)).
  assert (Hw : window_ok (now unit w) (default 24 None)) by (split; split; vm_compute; easy).
  assert (Hpre : Forall (fun run => is_raise (_serialize_run demo_str run) = false)
                   [demo_run "r1" (V1TaskStatus_member COMPLETED)])
    by (repeat constructor).
  exact (list_runs_all_or_nothing unit mixed_remote demo_str None None None None
           w w1 w1 (remote_call unit mixed_remote (Handle 0) (RunsList params) w1).2
           (Handle 0) params
           (VObj "V1TaskSummaryList" "V1TaskSummaryList" {[ "rows" := VList mixed_runs ]})
           [demo_run "r1" (V1TaskStatus_member COMPLETED)]
           [demo_run "r3" (V1TaskStatus_member FAILED)]
           (demo_run "r2" (VStr "RUNNING"))
           (Exn AttributeError "'str' object has no attribute 'value'")
           eq_refl Hw eq_refl eq_refl eq_refl Hpre eq_refl).
Defined.


Lemma list_runs_one_record_per_row_witness :
  exists records,
    list_runs unit demo_remote demo_str None None None None (imported unit demo_now tt)
    = (Ok records,
       World unit demo_now (Some (Handle 0)) 1 tt
         [RunsList {[ "since" := VDatetime (demo_now - 24 * US_PER_HOUR);
                      "limit" := VInt 50 ]}]) /\
    length records = 4%nat.
Proof.
  pose (w := imported unit demo_now tt).
  pose (w1 := (get_hatchet_client unit demo_remote w).2).
  pose (params := ({[ "since" := VDatetime (demo_now - 24 * US_PER_HOUR);
                      "limit" := VInt 50 ]} : gmap string pyval)).
  assert (Hw : window_ok (now unit w) (default 24 None)) by (split; split; vm_compute; easy).
  assert (Hall : Forall (fun run => is_raise (_serialize_run demo_str run) = false) demo_runs)
    by (repeat constructor).
  destruct (list_runs_one_record_per_row unit demo_remote demo_str None None None None
              w w1 w1 (remote_call unit demo_remote (Handle 0) (RunsList params) w1).2
              (Handle 0) params
              (VObj "V1TaskSummaryList" "V1TaskSummaryList" {[ "rows" := VList demo_runs ]})
              demo_runs eq_refl Hw eq_refl eq_refl eq_refl Hall)
    as (records & Hrun & Hlen & _).
  exists records. split; [exact Hrun|exact Hlen].
Defined.

Lemma serialize_run_status_read_witness :
  _serialize_run demo_str (demo_run "r9" VNone)
  = Raise (Exn AttributeError "'NoneType' object has no attribute 'value'").
Proof.
  destruct (serialize_run_status_read demo_str (demo_run "r9" VNone)) as (_ & H).
  exact (H (VStr "r9") VNone eq_refl eq_refl eq_refl).
Defined.

